(** * esc: [cmd/esc/cli/env_open.go]

    A shallow embedding of the [esc env open] command: the format and
    property-path validation of [newEnvOpenCmd], the two-step
    [openEnvironment] protocol, and [renderValue] with its helper
    [getEnvironmentVariables].

    Go strings are byte sequences and are modelled by [string] (a list of
    8-bit [ascii] characters); Go maps are modelled by [gmap], and the
    unspecified order in which Go ranges over a map by an explicit
    enumeration ([MapOrder]). *)

From Stdlib Require Import ZArith Ascii String List Lia Bool.
From stdpp Require Import base list sorting gmap strings.

Set Warnings "-register-all".

Local Open Scope string_scope.
Local Open Scope Z_scope.

(** ** Bytes and strings *)

Module Bytes.

(** The numeric value of a byte, [0 <= byte c < 256]. *)
Definition byte (c : ascii) : Z := Z.of_N (N_of_ascii c).

(** [byte(z)]: conversion of an integer to a byte truncates to 8 bits. *)
Definition chr (z : Z) : ascii := ascii_of_N (Z.to_N (Z.land z 255)).

(** [s[i]], with 0 out of range (the callers check the length first). *)
Fixpoint at_ (s : string) (i : nat) : Z :=
  match s, i with
  | EmptyString, _ => 0
  | String c _, O => byte c
  | String _ s', S i' => at_ s' i'
  end.

(** [s[n:]] *)
Fixpoint skip (n : nat) (s : string) : string :=
  match n, s with
  | O, _ => s
  | S n', String _ s' => skip n' s'
  | S _, EmptyString => EmptyString
  end.

Definition len (s : string) : Z := Z.of_nat (String.length s).

(** The concatenation of the strings of [l]. *)
Definition concat (l : list string) : string :=
  fold_right String.append EmptyString l.

(** The one-byte string [byte(z)]. *)
Definition str1 (z : Z) : string := String (chr z) EmptyString.

(** The newline character, as a string. *)
Definition nl : string := str1 10.

(** [strings.Join(l, sep)] *)
Fixpoint join (sep : string) (l : list string) : string :=
  match l with
  | [] => EmptyString
  | [x] => x
  | x :: l' => x ++ sep ++ join sep l'
  end.

(** [strings.Contains(s, sub)] *)
Fixpoint contains (sub s : string) : bool :=
  String.prefix sub s ||
  match s with
  | EmptyString => false
  | String _ s' => contains sub s'
  end.

End Bytes.

(** A Go [error] is modelled by its message; [nil] is [None] of
    [option error]. *)
Definition error : Type := string.

(** ** [io.Writer] *)

Module io.

(** A writer is modelled by the chunks written to it, one per call of
    [Write], oldest first; writing to it does not fail. *)
Definition Writer : Type := list string.

Definition Write (out : Writer) (chunk : string) : Writer :=
  (out ++ [chunk])%list.

(** The bytes that reached the writer. *)
Definition contents (out : Writer) : string := Bytes.concat out.

End io.

(** ** [unicode/utf8] *)

Module utf8.
Import Bytes.

Definition RuneError : Z := 0xFFFD.
Definition RuneSelf : Z := 0x80.
Definition MaxRune : Z := 0x10FFFF.
Definition surrogateMin : Z := 0xD800.
Definition surrogateMax : Z := 0xDFFF.

Definition maskx : Z := 0x3F.
Definition mask2 : Z := 0x1F.
Definition mask3 : Z := 0x0F.
Definition mask4 : Z := 0x07.
Definition tx : Z := 0x80.
Definition t2 : Z := 0xC0.
Definition t3 : Z := 0xE0.
Definition t4 : Z := 0xF0.
Definition rune1Max : Z := 0x7F.
Definition rune2Max : Z := 0x7FF.
Definition rune3Max : Z := 0xFFFF.

Definition locb : Z := 0x80.
Definition hicb : Z := 0xBF.

(** The entries of the table [first]: [as_] is ASCII, [xx] is an invalid
    first byte; otherwise the low three bits give the size of the
    encoding and the high four bits index [acceptRanges]. *)
Definition xx : Z := 0xF1.
Definition as_ : Z := 0xF0.
Definition s1 : Z := 0x02.
Definition s2 : Z := 0x13.
Definition s3 : Z := 0x03.
Definition s4 : Z := 0x23.
Definition s5 : Z := 0x34.
Definition s6 : Z := 0x04.
Definition s7 : Z := 0x44.

Definition first (b : Z) : Z :=
  if b <? 0x80 then as_
  else if b <? 0xC2 then xx
  else if b <? 0xE0 then s1
  else if b =? 0xE0 then s2
  else if b <? 0xED then s3
  else if b =? 0xED then s4
  else if b <? 0xF0 then s3
  else if b =? 0xF0 then s5
  else if b <? 0xF4 then s6
  else if b =? 0xF4 then s7
  else xx.

(** [acceptRanges[i]] as a pair [(lo, hi)]. *)
Definition acceptRanges (i : Z) : Z * Z :=
  if i =? 0 then (locb, hicb)
  else if i =? 1 then (0xA0, hicb)
  else if i =? 2 then (locb, 0x9F)
  else if i =? 3 then (0x90, hicb)
  else if i =? 4 then (locb, 0x8F)
  else (0, 0).

(** [utf8.DecodeRuneInString]: the first rune of [s] and its width in
    bytes; [(RuneError, 1)] for an invalid encoding. *)
Definition DecodeRuneInString (s : string) : Z * nat :=
  let n := len s in
  if n <? 1 then (RuneError, 0%nat) else
  let s0 := at_ s 0 in
  let x := first s0 in
  if as_ <=? x then
    (if Z.testbit x 0 then RuneError else s0, 1%nat)
  else
  let sz := Z.land x 7 in
  let accept := acceptRanges (Z.shiftr x 4) in
  if n <? sz then (RuneError, 1%nat) else
  let b1 := at_ s 1 in
  if (b1 <? fst accept) || (snd accept <? b1) then (RuneError, 1%nat) else
  if sz <=? 2 then
    (Z.lor (Z.shiftl (Z.land s0 mask2) 6) (Z.land b1 maskx), 2%nat)
  else
  let b2 := at_ s 2 in
  if (b2 <? locb) || (hicb <? b2) then (RuneError, 1%nat) else
  if sz <=? 3 then
    (Z.lor (Z.lor (Z.shiftl (Z.land s0 mask3) 12)
                  (Z.shiftl (Z.land b1 maskx) 6))
           (Z.land b2 maskx), 3%nat)
  else
  let b3 := at_ s 3 in
  if (b3 <? locb) || (hicb <? b3) then (RuneError, 1%nat) else
  (Z.lor (Z.lor (Z.lor (Z.shiftl (Z.land s0 mask4) 18)
                       (Z.shiftl (Z.land b1 maskx) 12))
                (Z.shiftl (Z.land b2 maskx) 6))
         (Z.land b3 maskx), 4%nat).

(** [utf8.ValidRune] *)
Definition ValidRune (r : Z) : bool :=
  ((0 <=? r) && (r <? surrogateMin)) ||
  ((surrogateMax <? r) && (r <=? MaxRune)).

Definition bytes (l : list Z) : string :=
  fold_right (fun b s => String (chr b) s) EmptyString l.

(** [utf8.AppendRune(nil, r)]. The comparisons are on [uint32(r)], which
    is beyond [MaxRune] for a negative [r]. *)
Definition AppendRune (r : Z) : string :=
  if (0 <=? r) && (r <=? rune1Max) then bytes [r]
  else if (0 <=? r) && (r <=? rune2Max) then
    bytes [Z.lor t2 (Z.shiftr r 6); Z.lor tx (Z.land r maskx)]
  else
    let enc3 (r : Z) :=
      bytes [Z.lor t3 (Z.shiftr r 12);
             Z.lor tx (Z.land (Z.shiftr r 6) maskx);
             Z.lor tx (Z.land r maskx)] in
    if (r <? 0) || (MaxRune <? r)
       || ((surrogateMin <=? r) && (r <=? surrogateMax))
    then enc3 RuneError
    else if r <=? rune3Max then enc3 r
    else
      bytes [Z.lor t4 (Z.shiftr r 18);
             Z.lor tx (Z.land (Z.shiftr r 12) maskx);
             Z.lor tx (Z.land (Z.shiftr r 6) maskx);
             Z.lor tx (Z.land r maskx)].

End utf8.

(** ** [strconv.Quote], the verb [%q] of [fmt] *)

Module strconv.
Import Bytes.

(** [lowerhex[i]] for [0 <= i < 16]. *)
Definition lowerhex (i : Z) : ascii :=
  chr (at_ "0123456789abcdef" (Z.to_nat i)).

Definition hex2 (b : Z) : string :=
  String (lowerhex (Z.shiftr b 4))
         (String (lowerhex (Z.land b 0xF)) EmptyString).

(** The digits [lowerhex[r>>s & 0xF]] for [s = 4*(n-1), ..., 4, 0]. *)
Fixpoint hexdigits (n : nat) (r : Z) : string :=
  match n with
  | O => EmptyString
  | S n' =>
      String (lowerhex (Z.land (Z.shiftr r (4 * Z.of_nat n')) 0xF))
             (hexdigits n' r)
  end.

Section Quote.

(** [strconv.IsPrint] decides runes up to U+00FF by comparisons and the
    others by a search in the tables [isPrint16], [isNotPrint16],
    [isPrint32] and [isNotPrint32], which are generated from the
    Unicode database. The search in the tables is a parameter. *)
Variable isPrintTable : Z -> bool.

Definition IsPrint (r : Z) : bool :=
  if r <=? 0xFF then
    if (0x20 <=? r) && (r <=? 0x7E) then true
    else if (0xA1 <=? r) && (r <=? 0xFF) then negb (r =? 0xAD)
    else false
  else isPrintTable r.

(** [appendEscapedRune] with the double quote as the quote character,
    [ASCIIonly] and [graphicOnly] false. *)
Definition appendEscapedRune (r : Z) : string :=
  if (r =? 34) || (r =? 92) then str1 92 ++ str1 r
  else if IsPrint r then utf8.AppendRune r
  else if r =? 7 then "\a"
  else if r =? 8 then "\b"
  else if r =? 12 then "\f"
  else if r =? 10 then "\n"
  else if r =? 13 then "\r"
  else if r =? 9 then "\t"
  else if r =? 11 then "\v"
  else if (r <? 32) || (r =? 0x7F) then "\x" ++ hex2 (Z.land r 255)
  else if negb (utf8.ValidRune r) then "\u" ++ hexdigits 4 0xFFFD
  else if r <? 0x10000 then "\u" ++ hexdigits 4 r
  else "\U" ++ hexdigits 8 r.

(** The loop of [appendQuotedWith]: one rune of [s] per iteration. Every
    iteration consumes at least one byte, so [String.length s]
    iterations are enough ([quoteLoop_fuel]). *)
Fixpoint quoteLoop (fuel : nat) (s : string) : string :=
  match fuel, s with
  | O, _ => EmptyString
  | _, EmptyString => EmptyString
  | S fuel', String c _ =>
      let '(r, width) :=
        if utf8.RuneSelf <=? byte c
        then utf8.DecodeRuneInString s
        else (byte c, 1%nat) in
      (if (width =? 1)%nat && (r =? utf8.RuneError)
       then "\x" ++ hex2 (byte c)
       else appendEscapedRune r)
      ++ quoteLoop fuel' (skip width s)
  end.

(** [strconv.Quote(s)] *)
Definition Quote (s : string) : string :=
  str1 34 ++ quoteLoop (String.length s) s ++ str1 34.

End Quote.

(** A printable ASCII character other than the double quote and the
    backslash, and the strings made of such characters. *)
Definition plainByte (c : ascii) : bool :=
  (0x20 <=? byte c) && (byte c <=? 0x7E)
  && negb (byte c =? 34) && negb (byte c =? 92).

Fixpoint plain (s : string) : bool :=
  match s with
  | EmptyString => true
  | String c s' => plainByte c && plain s'
  end.

(** A reader of escaped text: [scan false s] holds when [s] has no newline
    in it and no double quote other than the one that follows a
    backslash, and does not end on a pending backslash. *)
Fixpoint scan (pending : bool) (s : string) : bool :=
  match s with
  | EmptyString => negb pending
  | String c s' =>
      if byte c =? 10 then false
      else if pending then scan false s'
      else if byte c =? 92 then scan true s'
      else if byte c =? 34 then false
      else scan false s'
  end.

Definition wellEscaped (s : string) : bool := scan false s.

(** A byte that is neither the newline, the double quote nor the
    backslash, and the strings made of such bytes. *)
Definition safeByte (c : ascii) : bool :=
  negb (byte c =? 10) && negb (byte c =? 34) && negb (byte c =? 92).

Fixpoint allSafe (s : string) : bool :=
  match s with
  | EmptyString => true
  | String c s' => safeByte c && allSafe s'
  end.

End strconv.


(** ** [sort.Strings] and the order of Go strings *)

Module sort.

(** [a <= b] on Go strings: the lexicographic order of the bytes. *)
Definition le (a b : string) : Prop := String.leb a b = true.

#[global] Instance le_dec (a b : string) : Decision (le a b).
Proof. unfold le. apply _. Defined.

(** The strict order [a < b] of Go strings. *)
Definition lt (a b : string) : Prop := String.ltb a b = true.

(** [sort.Strings(keys)] sorts in increasing order. The order is total and
    equal strings are indistinguishable, so every sorting algorithm returns
    the same slice; the model is a merge sort. *)
Definition Strings (keys : list string) : list string :=
  merge_sort le keys.

End sort.

(** ** Package [esc]: values and environments *)

Module esc.

(** The dynamic content of a [Value]: [nil], [bool], [json.Number] (the
    text of the number), [string], [[]Value] or [map[string]Value]. *)
Inductive dyn (V : Type) : Type :=
| Nil
| Bool (b : bool)
| Number (n : string)
| Str (s : string)
| Slice (l : list V)
| Map (m : gmap string V).

Arguments Nil {V}.
Arguments Bool {V} b.
Arguments Number {V} n.
Arguments Str {V} s.
Arguments Slice {V} l.
Arguments Map {V} m.

(** [esc.Value]: the field [Value] and the secret flag. *)
Inductive Value : Type :=
| mkValue (value : dyn Value) (secret : bool).

Definition Value_Value (v : Value) : dyn Value :=
  match v with mkValue value _ => value end.

Definition Value_Secret (v : Value) : bool :=
  match v with mkValue _ secret => secret end.

(** The zero value [esc.Value{}]. *)
Definition zeroValue : Value := mkValue Nil false.

(** [esc.NewValue(m)] for a map [m]. *)
Definition NewValue (m : gmap string Value) : Value := mkValue (Map m) false.

(** [esc.Environment]; only the field [Properties] is read here. *)
Record Environment : Type := mkEnvironment {
  Properties : gmap string Value
}.

(** [m[k]] on a Go map: the zero value when the key is absent. *)
Definition index (m : gmap string Value) (k : string) : Value :=
  default zeroValue (m !! k).

(** Go ranges over a map in an unspecified order: a run of the program
    meets some enumeration of the keys of the map, each key once. *)
Record MapOrder : Type := mkMapOrder {
  keysOf : gmap string Value -> list string;
  keysOf_perm : forall m, keysOf m ≡ₚ (map_to_list m).*1
}.

(** [maps.Keys(m)]: the keys of [m] in the order of the iteration. *)
Definition maps_Keys (o : MapOrder) (m : gmap string Value) : list string :=
  keysOf o m.

(** A plain JSON value, what [Value.ToJSON] returns: [nil], [bool],
    [json.Number], [string], [[]any] or [map[string]any]. *)
Inductive JSON : Type :=
| JNull
| JBool (b : bool)
| JNumber (n : string)
| JString (s : string)
| JArray (l : list JSON)
| JObject (m : gmap string JSON).

(** Modelled from the spec: [Value.ToJSON(false)] of package [esc], whose
    source is not part of [env_open.go]. The value is converted to a plain
    JSON-compatible structure: sequences become arrays, mappings become
    objects, scalars stay, and secrets are not specially marked. *)
Fixpoint ToJSON (v : Value) : JSON :=
  match v with
  | mkValue Nil _ => JNull
  | mkValue (Bool b) _ => JBool b
  | mkValue (Number n) _ => JNumber n
  | mkValue (Str s) _ => JString s
  | mkValue (Slice l) _ => JArray (map ToJSON l)
  | mkValue (Map m) _ => JObject (ToJSON <$> m)
  end.

End esc.

(** ** [resource.PropertyPath] and the path navigator *)

Module resource.

(** A segment of a property path: a mapping key or a sequence index. *)
Inductive Segment : Type :=
| Key (k : string)
| Index (i : Z).

Definition PropertyPath : Type := list Segment.

End resource.

(** ** The commands of package [cli] *)

Module cli.
Import Bytes esc resource.

(** Modelled from the spec: [getEnvValue], the path navigator of package
    [cli], whose source is not part of [env_open.go]. The empty path
    resolves to the root; a key descends into a mapping that has it, an
    index into a sequence that has it; anything else is a miss. *)
Fixpoint getEnvValue (root : Value) (path : PropertyPath) : option Value :=
  match path with
  | [] => Some root
  | seg :: rest =>
      match seg, Value_Value root with
      | Key k, Map m =>
          match m !! k with
          | Some v => getEnvValue v rest
          | None => None
          end
      | Index i, Slice l =>
          if 0 <=? i then
            match l !! Z.to_nat i with
            | Some v => getEnvValue v rest
            | None => None
            end
          else None
      | _, _ => None
      end
  end.

Section Render.

(** The tables of [strconv.IsPrint] (see [strconv.IsPrint]). *)
Variable isPrintTable : Z -> bool.

(** [encoding/json]: the encoding of a string (quotes and escapes
    included) and of a [json.Number], which fails on an invalid number. *)
Variable json_string : string -> string.
Variable json_number : string -> error + string.

(** The indented JSON encoding of an [esc.Value] with all its fields, or
    the error of the encoder; the fields are declared in package [esc]. *)
Variable json_Value : Value -> error + string.

(** [Value.ToString(false)] of package [esc]. *)
Variable ToString : Value -> string.

(** [fmt.Sprintf] with the verb [%q] on a string. *)
Definition quoted (s : string) : string := strconv.Quote isPrintTable s.

(** The first error of a sequence of results, or all the results. *)
Fixpoint sequence (l : list (error + string)) : error + list string :=
  match l with
  | [] => inr []
  | inl e :: _ => inl e
  | inr x :: l' =>
      match sequence l' with
      | inl e => inl e
      | inr xs => inr (x :: xs)
      end
  end.

(** A new line followed by [depth] times the indent of two spaces. *)
Definition newline (depth : nat) : string :=
  nl ++ concat (repeat "  " depth).

Definition key_le (a b : string * (error + string)) : Prop :=
  sort.le a.1 b.1.

#[local] Instance key_le_dec a b : Decision (key_le a b).
Proof. unfold key_le. apply _. Defined.

(** [json.Encoder] after [SetIndent(empty, two spaces)], on a plain JSON
    value at nesting [depth]: the members of an object are written in the
    order of their keys, an empty array or object without a line break. *)
Fixpoint encodeIndent (depth : nat) (v : JSON) : error + string :=
  match v with
  | JNull => inr "null"
  | JBool b => inr (if b then "true" else "false")
  | JNumber n => json_number n
  | JString s => inr (json_string s)
  | JArray l =>
      match l with
      | [] => inr "[]"
      | _ =>
          match sequence (map (encodeIndent (S depth)) l) with
          | inl e => inl e
          | inr items =>
              inr ("[" ++ newline (S depth)
                   ++ join ("," ++ newline (S depth)) items
                   ++ newline depth ++ "]")
          end
      end
  | JObject m =>
      let members :=
        merge_sort key_le (map_to_list (encodeIndent (S depth) <$> m)) in
      match members with
      | [] => inr "{}"
      | _ =>
          match sequence (map snd members) with
          | inl e => inl e
          | inr items =>
              inr ("{" ++ newline (S depth)
                   ++ join ("," ++ newline (S depth))
                        (zip_with (fun k x => json_string k ++ ": " ++ x)
                                  (map fst members) items)
                   ++ newline depth ++ "}")
          end
      end
  end.

(** [enc.Encode(v)]: the encoding followed by a newline, in one write. *)
Definition Encode (out : io.Writer) (encoded : error + string)
  : io.Writer * option error :=
  match encoded with
  | inl e => (out, Some e)
  | inr text => (io.Write out (text ++ nl), None)
  end.

(** [fmt.Sprintf] with the format [%v=%q] on a key and a string. *)
Definition kvpOf (k strValue : string) : string :=
  k ++ "=" ++ quoted strValue.

(** The same on an entry, a pair of a key and a string. *)
Definition lineOf (e : string * string) : string := kvpOf e.1 e.2.

(** The loop of [getEnvironmentVariables] over the sorted keys. *)
Fixpoint environLoop (vars : gmap string Value) (keys : list string)
  (environ : list string) : list string :=
  match keys with
  | [] => environ
  | k :: keys' =>
      let v := index vars k in
      match Value_Value v with
      | Str strValue =>
          environLoop vars keys' (app environ [kvpOf k strValue])
      | _ => environLoop vars keys' environ
      end
  end.

Definition getEnvironmentVariables (o : MapOrder) (env : Environment)
  : list string :=
  match Value_Value (index (Properties env) "environmentVariables") with
  | Map vars =>
      let keys := maps_Keys o vars in
      let keys := sort.Strings keys in
      environLoop vars keys []
  | _ => []
  end.

(** [for _, kvp := range environ { write(line kvp) }] *)
Definition writeAll (line : string -> string) (out : io.Writer)
  (environ : list string) : io.Writer :=
  fold_left (fun out kvp => io.Write out (line kvp)) environ out.

Definition renderValue (o : MapOrder) (out : io.Writer)
  (env : option Environment) (path : PropertyPath) (format : string)
  : io.Writer * option error :=
  match env with
  | None => (out, None)
  | Some env =>
      let val := NewValue (Properties env) in
      let val :=
        if negb (length path =? 0)%nat then
          match getEnvValue val path with
          | Some vv => vv
          | None => zeroValue
          end
        else val in
      if (format =? "json")%string then
        let body := ToJSON val in
        Encode out (encodeIndent 0 body)
      else if (format =? "detailed")%string then
        Encode out (json_Value val)
      else if (format =? "dotenv")%string then
        (writeAll (fun kvp => kvp ++ nl) out (getEnvironmentVariables o env),
         None)
      else if (format =? "shell")%string then
        (writeAll (fun kvp => "export " ++ kvp ++ nl) out
                  (getEnvironmentVariables o env),
         None)
      else if (format =? "string")%string then
        (io.Write out (ToString val ++ nl), None)
      else
        (out, Some ("unknown output format " ++ quoted format))
  end.

End Render.

(** *** The string entries of a mapping

    What the claims about [dotenv] and [shell] speak of: the entries of
    a mapping whose value is a string, in the order of their keys. It is
    defined from the mapping alone, without an order of iteration. *)

Definition entryOf (vars : gmap string Value) (k : string)
  : option (string * string) :=
  match Value_Value (index vars k) with
  | Str strValue => Some (k, strValue)
  | _ => None
  end.

Definition stringEntries (vars : gmap string Value)
  : list (string * string) :=
  omap (entryOf vars) (sort.Strings (map_to_list vars).*1).

(** The mapping [environmentVariables] of an environment, empty when the
    property is absent or is not a mapping. *)
Definition variablesOf (env : Environment) : gmap string Value :=
  match Value_Value (index (Properties env) "environmentVariables") with
  | Map vars => vars
  | _ => ∅
  end.

Definition isMap (v : Value) : bool :=
  match Value_Value v with Map _ => true | _ => false end.

Definition isStr (v : Value) : bool :=
  match Value_Value v with Str _ => true | _ => false end.

(** *** The remote service and the command *)

(** A call of the remote service. *)
Inductive Call : Type :=
| OpenEnvironmentCall (orgName envName : string) (duration : Z)
| GetOpenEnvironmentCall (orgName envName envID : string).

(** What the command acts on: the calls made to the remote service, oldest
    first, and the two output streams. *)
Record World : Type := mkWorld {
  calls : list Call;
  stdout : io.Writer;
  stderr : io.Writer
}.

Definition initial : World :=
  {| calls := []; stdout := []; stderr := [] |}.

(** Computations that act on the world. *)
Definition M (A : Type) : Type := World -> A * World.

Definition ret {A : Type} (a : A) : M A := fun w => (a, w).

Definition bind {A B : Type} (m : M A) (k : A -> M B) : M B :=
  fun w => let '(a, w') := m w in k a w'.

Notation "'do' p <- m ;; k" := (bind m (fun 'p => k))
  (at level 10, p pattern, m at level 99, k at level 200).

(** The world after one more call. *)
Definition called (w : World) (c : Call) : World :=
  {| calls := app (calls w) [c]; stdout := stdout w; stderr := stderr w |}.

Definition logCall (c : Call) : M unit := fun w => (tt, called w c).

(** Run a writer-passing function on [stdout], respectively [stderr]. *)
Definition onStdout {A : Type} (f : io.Writer -> io.Writer * A) : M A :=
  fun w => let '(out, a) := f (stdout w) in
           (a, {| calls := calls w; stdout := out; stderr := stderr w |}).

Definition onStderr {A : Type} (f : io.Writer -> io.Writer * A) : M A :=
  fun w => let '(out, a) := f (stderr w) in
           (a, {| calls := calls w; stdout := stdout w; stderr := out |}).

Section Command.

Variable isPrintTable : Z -> bool.
Variable json_string : string -> string.
Variable json_number : string -> error + string.
Variable json_Value : Value -> error + string.
Variable ToString : Value -> string.

(** [client.EnvironmentDiagnostic] *)
Variable EnvironmentDiagnostic : Type.

(** [client.Client]: the answers of the remote service to the two calls
    of the open protocol, each with its error. *)
Record Client : Type := mkClient {
  OpenEnvironment :
    string -> string -> Z ->
    string * list EnvironmentDiagnostic * option error;
  GetOpenEnvironment :
    string -> string -> string -> option Environment * option error
}.

(** [envcmd.esc.client], as installed by [getCachedClient]. *)
Variable client : Client.

(** The collaborators of the command that live in other files:
    [getCachedClient] and [getEnvName] of package [cli],
    [resource.ParsePropertyPath], and the writer of diagnostics. *)
Variable getCachedClient : option error.
Variable getEnvName :
  list string -> string * string * list string * option error.
Variable ParsePropertyPath : string -> PropertyPath * option error.
Variable writePropertyEnvironmentDiagnostics :
  io.Writer -> list EnvironmentDiagnostic -> io.Writer * option error.

Definition callOpenEnvironment (orgName envName : string) (duration : Z)
  : M (string * list EnvironmentDiagnostic * option error) :=
  do _ <- logCall (OpenEnvironmentCall orgName envName duration) ;;
  ret (OpenEnvironment client orgName envName duration).

Definition callGetOpenEnvironment (orgName envName envID : string)
  : M (option Environment * option error) :=
  do _ <- logCall (GetOpenEnvironmentCall orgName envName envID) ;;
  ret (GetOpenEnvironment client orgName envName envID).

Definition openEnvironment (orgName envName : string) (duration : Z)
  : M (option Environment * list EnvironmentDiagnostic * option error) :=
  do (envID, diags, err) <- callOpenEnvironment orgName envName duration ;;
  match err with
  | Some _ => ret (None, [], err)
  | None =>
      if negb (length diags =? 0)%nat then ret (None, diags, err)
      else
        do (open, err) <- callGetOpenEnvironment orgName envName envID ;;
        ret (open, [], err)
  end.

(** The check of the output format against the property path, the
    [switch] of [RunE]: the error to return, if any. *)
Definition checkFormat (format : string) (path : PropertyPath)
  : option error :=
  if ((format =? "detailed") || (format =? "json")
      || (format =? "string"))%string then None
  else if ((format =? "dotenv") || (format =? "shell"))%string then
    if negb (length path =? 0)%nat then
      Some ("output format '" ++ format
            ++ "' may not be used with a property path")
    else None
  else Some ("unknown output format " ++ quoted isPrintTable format).

(** The function [RunE] of the command made by [newEnvOpenCmd]; [format]
    and [duration] are the values of the two flags. *)
Definition RunE (o : MapOrder) (format : string) (duration : Z)
  (args : list string) : M (option error) :=
  match getCachedClient with
  | Some err => ret (Some err)
  | None =>
      let '(orgName, envName, args, err) := getEnvName args in
      match err with
      | Some err => ret (Some err)
      | None =>
          let parsed :=
            match args with
            | [a] =>
                let '(p, err) := ParsePropertyPath a in
                match err with
                | Some err =>
                    inl ("invalid property path " ++ a ++ ": " ++ err)
                | None => inr p
                end
            | _ => inr []
            end in
          match parsed with
          | inl err => ret (Some err)
          | inr path =>
              match checkFormat format path with
              | Some err => ret (Some err)
              | None =>
                  do (env, diags, err) <-
                    openEnvironment orgName envName duration ;;
                  match err with
                  | Some err => ret (Some err)
                  | None =>
                      if negb (length diags =? 0)%nat then
                        onStderr (fun out =>
                          writePropertyEnvironmentDiagnostics out diags)
                      else
                        onStdout (fun out =>
                          renderValue isPrintTable json_string json_number
                            json_Value ToString o out env path format)
                  end
              end
          end
      end
  end.

End Command.

End cli.

(** ** Sample inputs *)

Module Samples.
Import Bytes esc resource cli.

(** The enumeration of the keys that [map_to_list] gives, and its
    reverse: two orders in which a run may meet the keys of a map. *)
Definition forwardOrder : MapOrder :=
  {| keysOf := fun m => (map_to_list m).*1;
     keysOf_perm := fun m => Permutation_refl _ |}.

Definition backwardOrder : MapOrder :=
  {| keysOf := fun m => rev (map_to_list m).*1;
     keysOf_perm := fun m => Permutation_sym (Permutation_rev _) |}.

Definition str (s : string) : Value := mkValue (Str s) false.
Definition num (n : string) : Value := mkValue (Number n) false.
Definition obj (m : gmap string Value) : Value := mkValue (Map m) false.

(** An environment whose only property is [environmentVariables]. *)
Definition withVariables (vars : gmap string Value) : Environment :=
  {| Properties := {[ "environmentVariables" := obj vars ]} |}.

(** The tree [{environmentVariables: {B: 2, A: 1}}], both being strings. *)
Definition treeBA : Environment :=
  withVariables (<["B" := str "2"]> (<["A" := str "1"]> ∅)).

(** The same tree with the two entries inserted in the other order. *)
Definition treeAB : Environment :=
  withVariables (<["A" := str "1"]> (<["B" := str "2"]> ∅)).

(** A string with a double quote, a backslash and a newline in it. *)
Definition awkward : string := "a" ++ str1 34 ++ "b" ++ str1 92 ++ nl ++ "c".

(** A mapping with two strings, one of them awkward, and a number. *)
Definition mixedVars : gmap string Value :=
  <["PORT" := num "8080"]>
    (<["NOTE" := str awkward]> (<["HOME" := str "/root"]> ∅)).

Definition treeMixed : Environment := withVariables mixedVars.

(** The tree [{x: {y: 42}}]. *)
Definition treeXY : Environment :=
  {| Properties := {[ "x" := obj {[ "y" := num "42" ]} ]} |}.

(** Stand-ins for the parameters of the model. *)
Definition noTable : Z -> bool := fun _ => false.
Definition bareString : string -> string :=
  fun s => str1 34 ++ s ++ str1 34.
Definition anyNumber : string -> error + string := fun n => inr n.
Definition noDetail : Value -> error + string := fun _ => inr "{}".
Definition noString : Value -> string := fun _ => EmptyString.

(** The renderer with these stand-ins. *)
Definition render :=
  renderValue noTable bareString anyNumber noDetail noString.

(** A remote service that answers the open call with one diagnostic and
    an error at once. *)
Definition failingClient : Client string :=
  {| OpenEnvironment := fun _ _ _ => ("session", ["bad reference"], Some "boom");
     GetOpenEnvironment := fun _ _ _ => (Some treeBA, None) |}.

(** A remote service that answers the open call with one diagnostic. *)
Definition diagnosingClient : Client string :=
  {| OpenEnvironment := fun _ _ _ => ("session", ["bad reference"], None);
     GetOpenEnvironment := fun _ _ _ => (Some treeBA, None) |}.

(** A remote service that opens [treeBA] without diagnostics. *)
Definition servingClient : Client string :=
  {| OpenEnvironment := fun _ _ _ => ("session", [], None);
     GetOpenEnvironment := fun _ _ _ => (Some treeBA, None) |}.

(** Collaborators that accept their input: the first argument names the
    environment, a property path is a single key. *)
Definition splitName (args : list string)
  : string * string * list string * option error :=
  match args with
  | [] => (EmptyString, EmptyString, [], Some "no environment name")
  | name :: rest => ("org", name, rest, None)
  end.

Definition oneKey (a : string) : PropertyPath * option error :=
  match a with
  | EmptyString => ([], None)
  | _ => ([Key a], None)
  end.

Definition reportAll (out : io.Writer) (diags : list string)
  : io.Writer * option error :=
  (app out diags, None).

(** The command with these stand-ins. *)
Definition command (c : Client string) (o : MapOrder) (format : string)
  (duration : Z) (args : list string) : M (option error) :=
  RunE noTable bareString anyNumber noDetail noString string c None
       splitName oneKey reportAll o format duration args.

(** A format identifier with a double quote in it. *)
Definition quoteFormat : string := "a" ++ str1 34 ++ "b".

(** A remote service whose fetch call returns a tree and an error. *)
Definition brokenFetchClient : Client string :=
  {| OpenEnvironment := fun _ _ _ => ("session", [], None);
     GetOpenEnvironment := fun _ _ _ => (Some treeBA, Some "gone") |}.

(** A parser of property paths that accepts nothing. *)
Definition rejectPath (a : string) : PropertyPath * option error :=
  ([], Some "missing closing bracket").

(** The command with a parser of one's choice. *)
Definition commandParsing
  (parse : string -> PropertyPath * option error) (c : Client string)
  (o : MapOrder) (format : string) (duration : Z) (args : list string)
  : M (option error) :=
  RunE noTable bareString anyNumber noDetail noString string c None
       splitName parse reportAll o format duration args.

(** The strings of [mixedVars] marked secret and without the number, in
    an environment that has another property too. *)
Definition secretVars : gmap string Value :=
  <["NOTE" := mkValue (Str awkward) true]>
    (<["HOME" := mkValue (Str "/root") true]> ∅).

Definition treeSecret : Environment :=
  {| Properties :=
       <["region" := str "eu"]>
         {[ "environmentVariables" := mkValue (Map secretVars) true ]} |}.

End Samples.

(** ** Notions used to state further properties *)

Module Derived.
Import Bytes esc resource cli.

(** The property path that [RunE] works with: the parsed argument when
    exactly one argument is left after the name of the environment, the
    empty path otherwise; or the error about the argument. *)
Definition parsePath
  (ParsePropertyPath : string -> PropertyPath * option error)
  (rest : list string) : error + PropertyPath :=
  match rest with
  | [a] =>
      let '(p, err) := ParsePropertyPath a in
      match err with
      | Some err => inl ("invalid property path " ++ a ++ ": " ++ err)
      | None => inr p
      end
  | _ => inr []
  end.

(** The combinations of a format and a path that the [switch] of [RunE]
    lets through. *)
Definition acceptedFormat (format : string) (path : PropertyPath) : Prop :=
  format = "detailed" \/ format = "json" \/ format = "string"
  \/ ((format = "dotenv" \/ format = "shell") /\ path = []).

(** [v.Value.(string)]: the string of a value, if it holds one. *)
Definition strOf (v : Value) : option string :=
  match Value_Value v with
  | Str strValue => Some strValue
  | _ => None
  end.

(** Whether a string has a newline character in it. *)
Fixpoint hasNewline (s : string) : bool :=
  match s with
  | EmptyString => false
  | String c s' => (byte c =? 10) || hasNewline s'
  end.

End Derived.

(** * Properties *)

(** ** The order of strings and [sort.Strings] *)

Module sort_facts.
Import sort.

Lemma ascii_compare_refl (a : ascii) : Ascii.compare a a = Eq.
Proof. unfold Ascii.compare. apply N.compare_refl. Qed.

Lemma ascii_compare_lt_trans (a b c : ascii) :
  Ascii.compare a b = Lt -> Ascii.compare b c = Lt -> Ascii.compare a c = Lt.
Proof.
  unfold Ascii.compare. rewrite !N.compare_lt_iff. lia.
Qed.

Lemma compare_refl (s : string) : String.compare s s = Eq.
Proof.
  induction s as [|c s IH]; simpl; [reflexivity|].
  now rewrite ascii_compare_refl.
Qed.

(** [compare] is transitive on [<=]. *)
Lemma compare_le_trans (a b c : string) :
  String.compare a b <> Gt -> String.compare b c <> Gt ->
  String.compare a c <> Gt.
Proof.
  revert b c. induction a as [|x a IH]; intros [|y b] [|z c]; simpl;
    try congruence.
  destruct (Ascii.compare x y) eqn:Hxy; try congruence.
  - apply Ascii.compare_eq_iff in Hxy. subst y.
    destruct (Ascii.compare x z) eqn:Hxz; try congruence.
    intros. now apply (IH b c).
  - destruct (Ascii.compare y z) eqn:Hyz; try congruence.
    + apply Ascii.compare_eq_iff in Hyz. subst z. now rewrite Hxy.
    + now rewrite (ascii_compare_lt_trans x y z).
Qed.

Lemma le_compare (a b : string) : le a b <-> String.compare a b <> Gt.
Proof.
  unfold le, String.leb. destruct (String.compare a b); split; congruence.
Qed.

#[global] Instance le_refl : Reflexive le.
Proof. intros s. apply le_compare. now rewrite compare_refl. Qed.

#[global] Instance le_trans : Transitive le.
Proof.
  intros a b c. rewrite !le_compare. apply compare_le_trans.
Qed.

#[global] Instance le_antisym : AntiSymm (=) le.
Proof. intros a b. apply String.leb_antisym. Qed.

#[global] Instance le_total : Total le.
Proof. intros a b. apply String.leb_total. Qed.

Lemma le_ne_lt (a b : string) : le a b -> a <> b -> lt a b.
Proof.
  rewrite le_compare. unfold lt, String.ltb.
  destruct (String.compare a b) eqn:H; try congruence.
  apply String.compare_eq_iff in H. congruence.
Qed.

Lemma Strings_sorted (l : list string) : StronglySorted le (Strings l).
Proof. apply StronglySorted_merge_sort; apply _. Qed.

Lemma Strings_perm (l : list string) : Strings l ≡ₚ l.
Proof. apply merge_sort_Permutation. Qed.

(** The result of [sort.Strings] does not depend on the order of its
    input. *)
Lemma Strings_unique (l1 l2 : list string) :
  l1 ≡ₚ l2 -> Strings l1 = Strings l2.
Proof.
  intros H. apply (StronglySorted_unique le); try apply Strings_sorted.
  now rewrite !Strings_perm.
Qed.

Lemma StronglySorted_le_lt (l : list string) :
  NoDup l -> StronglySorted le l -> StronglySorted lt l.
Proof.
  induction 2 as [|x l Hl IH Hx]; constructor.
  - apply IH. now apply NoDup_cons_1_2 in H.
  - apply NoDup_cons in H as [Hnot _].
    rewrite Forall_forall in Hx |- *. intros y Hy.
    apply le_ne_lt; [now apply Hx|]. intros ->. now apply Hnot.
Qed.

Lemma Strings_strictly_sorted (l : list string) :
  NoDup l -> StronglySorted lt (Strings l).
Proof.
  intros H. apply StronglySorted_le_lt; [|apply Strings_sorted].
  now rewrite Strings_perm.
Qed.

End sort_facts.

(** ** [strconv.Quote] *)

Module strconv_facts.
Import Bytes strconv.

Lemma append_assoc (a b c : string) : (a ++ b) ++ c = a ++ b ++ c.
Proof.
  induction a as [|x a IH]; [reflexivity|].
  change (String x ((a ++ b) ++ c) = String x (a ++ b ++ c)).
  now rewrite IH.
Qed.

Lemma append_nil_r (a : string) : a ++ EmptyString = a.
Proof.
  induction a as [|x a IH]; [reflexivity|].
  change (String x (a ++ EmptyString) = String x a). now rewrite IH.
Qed.

Lemma length_skip (n : nat) (s : string) :
  String.length (skip n s) = (String.length s - n)%nat.
Proof.
  revert s. induction n as [|n IH]; intros [|c s]; simpl; auto with lia.
Qed.

(** A non-empty string decodes to a rune of at least one byte. *)
Lemma DecodeRuneInString_width (c : ascii) (s : string) :
  (1 <= snd (utf8.DecodeRuneInString (String c s)))%nat.
Proof.
  unfold utf8.DecodeRuneInString.
  assert ((len (String c s) <? 1) = false) as ->.
  { apply Z.ltb_ge. unfold len. simpl String.length. lia. }
  repeat match goal with
         | |- context [if ?b then _ else _] => destruct b
         end; simpl; lia.
Qed.

Section Quote.
Variable isPrintTable : Z -> bool.

(** The loop of [appendQuotedWith] ends: any number of iterations from
    the length of the string on gives the same result. *)
Lemma quoteLoop_fuel (n m : nat) (s : string) :
  (String.length s <= n)%nat -> (String.length s <= m)%nat ->
  quoteLoop isPrintTable n s = quoteLoop isPrintTable m s.
Proof.
  revert m s. induction n as [|n IH]; intros m s Hn Hm.
  - destruct s; simpl in Hn; [|lia]. now destruct m.
  - destruct s as [|c s]; [now destruct m|].
    destruct m as [|m]; [simpl in Hm; lia|].
    simpl quoteLoop.
    pose proof (DecodeRuneInString_width c s) as Hw.
    destruct (utf8.RuneSelf <=? byte c).
    + destruct (utf8.DecodeRuneInString (String c s)) as [r width].
      simpl in Hw. f_equal.
      apply IH; rewrite length_skip; simpl in *; lia.
    + f_equal. apply IH; simpl in *; lia.
Qed.

(** *** The quoted text holds no newline and no bare double quote *)

Lemma byte_chr (z : Z) : byte (chr z) = Z.land z 255.
Proof.
  unfold byte, chr.
  assert (0 <= Z.land z 255 < 256) as Hb.
  { change 255 with (Z.ones 8). rewrite Z.land_ones by lia.
    apply Z.mod_pos_bound. reflexivity. }
  rewrite N_ascii_embedding by lia. lia.
Qed.

Lemma safeByte_high (z : Z) :
  Z.testbit z 7 = true -> safeByte (chr z) = true.
Proof.
  intros H. unfold safeByte. rewrite byte_chr.
  assert (Z.testbit (Z.land z 255) 7 = true) as Hbit.
  { rewrite Z.land_spec, H. reflexivity. }
  destruct (Z.land z 255 =? 10) eqn:E1;
    [apply Z.eqb_eq in E1; rewrite E1 in Hbit; discriminate|].
  destruct (Z.land z 255 =? 34) eqn:E2;
    [apply Z.eqb_eq in E2; rewrite E2 in Hbit; discriminate|].
  destruct (Z.land z 255 =? 92) eqn:E3;
    [apply Z.eqb_eq in E3; rewrite E3 in Hbit; discriminate|].
  reflexivity.
Qed.

Lemma safeByte_lor (c y : Z) :
  Z.testbit c 7 = true -> safeByte (chr (Z.lor c y)) = true.
Proof.
  intros H. apply safeByte_high. rewrite Z.lor_spec, H. reflexivity.
Qed.

Lemma safeByte_small (r : Z) :
  0x20 <= r <= 0x7E -> r <> 34 -> r <> 92 -> safeByte (chr r) = true.
Proof.
  intros Hr H34 H92. unfold safeByte. rewrite byte_chr.
  change 255 with (Z.ones 8). rewrite Z.land_ones by lia.
  rewrite Z.mod_small by lia.
  apply Z.eqb_neq in H34, H92. rewrite H34, H92.
  destruct (r =? 10) eqn:E; [apply Z.eqb_eq in E; lia|reflexivity].
Qed.

Lemma safeByte_lowerhex (i : Z) : safeByte (lowerhex i) = true.
Proof.
  unfold lowerhex. generalize (Z.to_nat i). intros n.
  do 16 (destruct n as [|n]; [reflexivity|]). reflexivity.
Qed.

Lemma allSafe_app (a b : string) :
  allSafe (a ++ b) = allSafe a && allSafe b.
Proof.
  induction a as [|c a IH]; [reflexivity|].
  change (String c a ++ b) with (String c (a ++ b)).
  cbn [allSafe]. now rewrite IH, andb_assoc.
Qed.

Lemma allSafe_hexdigits (n : nat) (r : Z) : allSafe (hexdigits n r) = true.
Proof.
  induction n as [|n IH]; [reflexivity|].
  cbn [hexdigits allSafe]. now rewrite safeByte_lowerhex, IH.
Qed.

Lemma allSafe_hex2 (b : Z) : allSafe (hex2 b) = true.
Proof.
  unfold hex2. cbn [allSafe]. now rewrite !safeByte_lowerhex.
Qed.

(** The reader goes through safe bytes without a change of state. *)
Lemma scan_safe (a rest : string) :
  allSafe a = true -> scan false (a ++ rest) = scan false rest.
Proof.
  induction a as [|c a IH]; [reflexivity|].
  cbn [allSafe]. intros [Hc Ha]%andb_prop.
  change (String c a ++ rest) with (String c (a ++ rest)).
  cbn [scan]. unfold safeByte in Hc.
  apply andb_prop in Hc as [[H10 H34]%andb_prop H92].
  apply negb_true_iff in H10, H34, H92. rewrite H10, H34, H92.
  now apply IH.
Qed.

(** A backslash and the byte after it are read as one escape. *)
Lemma scan_escape (c : ascii) (a rest : string) :
  (byte c =? 10) = false -> allSafe a = true ->
  scan false (String (chr 92) (String c a) ++ rest) = scan false rest.
Proof.
  intros Hc Ha.
  change (String (chr 92) (String c a) ++ rest)
    with (String (chr 92) (String c (a ++ rest))).
  cbn [scan]. rewrite Hc. change (byte (chr 92) =? 10) with false.
  change (byte (chr 92) =? 92) with true. cbv iota.
  now apply scan_safe.
Qed.

Lemma chr_byte (c : ascii) : chr (byte c) = c.
Proof.
  destruct c as [[] [] [] [] [] [] [] []]; reflexivity.
Qed.

(** One iteration on a plain character copies it. *)
Lemma quoteLoop_plainByte (n : nat) (c : ascii) (s : string) :
  plainByte c = true ->
  quoteLoop isPrintTable (S n) (String c s)
  = String c (quoteLoop isPrintTable n s).
Proof.
  intros H. simpl quoteLoop.
  destruct c as [[] [] [] [] [] [] [] []]; try discriminate H;
    reflexivity.
Qed.

Lemma quoteLoop_plain (s : string) :
  plain s = true -> quoteLoop isPrintTable (String.length s) s = s.
Proof.
  induction s as [|c s IH]; simpl plain; [reflexivity|].
  intros [Hc Hs]%andb_prop. simpl String.length.
  rewrite quoteLoop_plainByte by exact Hc. now rewrite IH.
Qed.

(** A plain string is quoted as it is, between two double quotes. *)
Lemma Quote_plain (s : string) :
  plain s = true -> Quote isPrintTable s = str1 34 ++ s ++ str1 34.
Proof. intros H. unfold Quote. now rewrite quoteLoop_plain. Qed.

Lemma allSafe_AppendRune (r : Z) :
  IsPrint isPrintTable r = true -> r <> 34 -> r <> 92 ->
  allSafe (utf8.AppendRune r) = true.
Proof.
  intros Hprint H34 H92. unfold utf8.AppendRune.
  destruct ((0 <=? r) && (r <=? utf8.rune1Max)) eqn:E1.
  - unfold utf8.bytes. cbn [fold_right allSafe].
    rewrite safeByte_small; [reflexivity| |assumption|assumption].
    apply andb_prop in E1 as [_ E1].
    unfold utf8.rune1Max in E1. apply Z.leb_le in E1.
    revert Hprint. unfold IsPrint.
    destruct (r <=? 0xFF) eqn:E2; [|apply Z.leb_gt in E2; lia].
    destruct ((0x20 <=? r) && (r <=? 0x7E)) eqn:E3.
    + apply andb_prop in E3 as [Ha Hb].
      apply Z.leb_le in Ha, Hb. lia.
    + destruct (0xA1 <=? r) eqn:E4; [|intros Hf; discriminate Hf].
      apply Z.leb_le in E4. lia.
  - repeat match goal with
           | |- context [if ?b then _ else _] => destruct b
           end;
      unfold utf8.bytes; cbn [fold_right allSafe];
      rewrite !safeByte_lor by reflexivity; reflexivity.
Qed.

(** What one rune adds to the quoted text is read as a whole. *)
Lemma scan_appendEscapedRune (r : Z) (rest : string) :
  scan false (appendEscapedRune isPrintTable r ++ rest) = scan false rest.
Proof.
  unfold appendEscapedRune.
  destruct ((r =? 34) || (r =? 92)) eqn:E.
  - apply orb_prop in E as [E|E]; apply Z.eqb_eq in E; subst r;
      reflexivity.
  - apply orb_false_elim in E as [H34 H92]. apply Z.eqb_neq in H34, H92.
    destruct (IsPrint isPrintTable r) eqn:Hprint.
    { apply scan_safe. now apply allSafe_AppendRune. }
    repeat match goal with
           | |- context [if ?b then _ else _] => destruct b
           end;
      try reflexivity;
      match goal with
      | |- scan false ((String ?b (String ?c EmptyString) ++ ?a) ++ _) = _ =>
          change (String b (String c EmptyString) ++ a)
            with (String (chr 92) (String c a));
          apply scan_escape; [reflexivity|];
          first [apply allSafe_hex2 | apply allSafe_hexdigits]
      end.
Qed.

(** The text between the quotes of [Quote] holds no newline and no double
    quote other than an escaped one. *)
Lemma scan_quoteLoop (n : nat) (s rest : string) :
  scan false (quoteLoop isPrintTable n s ++ rest) = scan false rest.
Proof.
  revert s. induction n as [|n IH]; intros s; [reflexivity|].
  destruct s as [|c s]; [reflexivity|].
  cbn [quoteLoop].
  destruct (if utf8.RuneSelf <=? byte c
            then utf8.DecodeRuneInString (String c s)
            else (byte c, 1%nat)) as [r width].
  rewrite append_assoc.
  destruct ((width =? 1)%nat && (r =? utf8.RuneError)).
  - change ("\x" ++ hex2 (byte c))
      with (String (chr 92) (String "x"%char (hex2 (byte c)))).
    rewrite scan_escape; [apply IH|reflexivity|apply allSafe_hex2].
  - rewrite scan_appendEscapedRune. apply IH.
Qed.

Lemma wellEscaped_quoteLoop (n : nat) (s : string) :
  wellEscaped (quoteLoop isPrintTable n s) = true.
Proof.
  unfold wellEscaped.
  rewrite <- (append_nil_r (quoteLoop isPrintTable n s)).
  now rewrite scan_quoteLoop.
Qed.

End Quote.

Lemma prefix_app (a b : string) : String.prefix a (a ++ b) = true.
Proof.
  induction a as [|c a IH]; simpl; [now destruct b|].
  destruct (ascii_dec c c); [exact IH|congruence].
Qed.

Lemma contains_prefix (sub s : string) :
  String.prefix sub s = true -> contains sub s = true.
Proof. intros H. destruct s; unfold contains; now rewrite H. Qed.

Lemma contains_app (sub a b : string) :
  contains sub (a ++ sub ++ b) = true.
Proof.
  induction a as [|c a IH].
  - change (EmptyString ++ sub ++ b) with (sub ++ b).
    apply contains_prefix, prefix_app.
  - change (String c a ++ sub ++ b) with (String c (a ++ sub ++ b)).
    cbn [contains]. rewrite IH. apply orb_true_r.
Qed.

End strconv_facts.

(** ** [getEnvironmentVariables] and the string entries *)

Module render_facts.
Import Bytes esc resource cli sort_facts.

Lemma writeAll_spec (line : string -> string) (out : io.Writer)
  (environ : list string) :
  writeAll line out environ = app out (map line environ).
Proof.
  revert out. induction environ as [|kvp environ IH]; intros out; simpl.
  - now rewrite app_nil_r.
  - rewrite IH. unfold io.Write. now rewrite <- app_assoc.
Qed.

Lemma stringEntries_empty : stringEntries ∅ = [].
Proof. unfold stringEntries. now rewrite map_to_list_empty. Qed.

(** An entry of [stringEntries] is an entry of the mapping whose value is
    a string, and conversely. *)
Lemma elem_of_stringEntries (vars : gmap string Value) (k s : string) :
  (k, s) ∈ stringEntries vars
  <-> exists secret, vars !! k = Some (mkValue (Str s) secret).
Proof.
  unfold stringEntries. rewrite list_elem_of_omap. split.
  - intros (k' & _ & Hk). unfold entryOf, index in Hk.
    destruct (vars !! k') as [[value secret]|] eqn:E; simpl in Hk;
      [|discriminate].
    destruct value; try discriminate. injection Hk as -> ->. eauto.
  - intros [secret Hk]. exists k. split.
    + rewrite Strings_perm. apply list_elem_of_fmap.
      exists (k, mkValue (Str s) secret). split; [reflexivity|].
      now apply elem_of_map_to_list.
    + unfold entryOf, index. now rewrite Hk.
Qed.

Lemma omap_entryOf_sorted (vars : gmap string Value) (keys : list string) :
  StronglySorted sort.lt keys ->
  StronglySorted (fun a b => sort.lt a.1 b.1) (omap (entryOf vars) keys).
Proof.
  induction 1 as [|k keys Hkeys IH Hk]; simpl; [constructor|].
  unfold entryOf at 1. destruct (Value_Value (index vars k)); try exact IH.
  constructor; [exact IH|].
  rewrite Forall_forall in Hk. apply Forall_forall. intros [k' s'] Hin.
  apply list_elem_of_omap in Hin as (k'' & Hin & E). simpl.
  unfold entryOf in E. destruct (Value_Value (index vars k''));
    try discriminate.
  injection E as -> _. now apply Hk.
Qed.

(** The string entries come in the strictly increasing order of their
    keys. *)
Lemma stringEntries_sorted (vars : gmap string Value) :
  StronglySorted (fun a b => sort.lt a.1 b.1) (stringEntries vars).
Proof.
  apply omap_entryOf_sorted, Strings_strictly_sorted,
    NoDup_fst_map_to_list.
Qed.

Section Render.
Variable isPrintTable : Z -> bool.

Lemma environLoop_spec (vars : gmap string Value) (keys environ : list string) :
  environLoop isPrintTable vars keys environ
  = app environ (map (lineOf isPrintTable) (omap (entryOf vars) keys)).
Proof.
  revert environ. induction keys as [|k keys IH]; intros environ; simpl.
  - now rewrite app_nil_r.
  - unfold entryOf at 1.
    destruct (Value_Value (index vars k)); rewrite IH; try reflexivity.
    rewrite <- app_assoc. reflexivity.
Qed.

(** [getEnvironmentVariables] returns the lines of the string entries of
    [environmentVariables], whatever the order of the iteration. *)
Lemma getEnvironmentVariables_spec (o : MapOrder) (env : Environment) :
  getEnvironmentVariables isPrintTable o env
  = map (lineOf isPrintTable) (stringEntries (variablesOf env)).
Proof.
  unfold getEnvironmentVariables, variablesOf.
  destruct (Value_Value (index (Properties env) "environmentVariables"));
    try (now rewrite stringEntries_empty).
  rewrite environLoop_spec. simpl. unfold stringEntries, maps_Keys.
  now rewrite (Strings_unique _ _ (keysOf_perm o m)).
Qed.

End Render.

End render_facts.

(** The string entries depend on the string-valued entries of the mapping
    only. *)
Module entries_facts.
Import Bytes esc resource cli sort_facts render_facts.

Lemma lt_irrefl (a : string) : ~ sort.lt a a.
Proof. unfold sort.lt, String.ltb. now rewrite compare_refl. Qed.

Lemma lt_asym (a b : string) : sort.lt a b -> sort.lt b a -> False.
Proof.
  unfold sort.lt, String.ltb. rewrite (String.compare_antisym b a).
  destruct (String.compare a b); simpl; congruence.
Qed.

Lemma StronglySorted_NoDup {A : Type} (R : relation A) (l : list A) :
  (forall x, ~ R x x) -> StronglySorted R l -> NoDup l.
Proof.
  intros Hirr. induction 1 as [|x l Hl IH Hx]; constructor; [|exact IH].
  intros Hin. rewrite Forall_forall in Hx. exact (Hirr x (Hx x Hin)).
Qed.

Lemma stringEntries_NoDup (vars : gmap string Value) :
  NoDup (stringEntries vars).
Proof.
  apply (StronglySorted_NoDup (fun a b => sort.lt a.1 b.1));
    [|apply stringEntries_sorted].
  intros x. apply lt_irrefl.
Qed.

Lemma stringEntries_keys_NoDup (vars : gmap string Value) :
  NoDup (stringEntries vars).*1.
Proof.
  apply (StronglySorted_NoDup sort.lt); [apply lt_irrefl|].
  apply (StronglySorted_fmap _ (fun a b => sort.lt a.1 b.1) sort.lt).
  - intros a b H. exact H.
  - apply stringEntries_sorted.
Qed.

Lemma stringEntries_ext (vars1 vars2 : gmap string Value) :
  (forall k s, (exists secret, vars1 !! k = Some (mkValue (Str s) secret))
               <-> (exists secret, vars2 !! k = Some (mkValue (Str s) secret))) ->
  stringEntries vars1 = stringEntries vars2.
Proof.
  intros H.
  apply (StronglySorted_unique_strong (fun a b => sort.lt a.1 b.1)).
  - intros a b _ _ Hab Hba. destruct (lt_asym _ _ Hab Hba).
  - apply stringEntries_sorted.
  - apply stringEntries_sorted.
  - apply NoDup_Permutation; try apply stringEntries_NoDup.
    intros [k s]. rewrite !elem_of_stringEntries. apply H.
Qed.

(** Deleting an entry whose value is not a string changes nothing. *)
Lemma stringEntries_delete (vars : gmap string Value) (k : string) (v : Value) :
  vars !! k = Some v -> isStr v = false ->
  stringEntries (delete k vars) = stringEntries vars.
Proof.
  intros Hk Hv. apply stringEntries_ext. intros k' s.
  destruct (decide (k = k')) as [<-|Hne].
  - rewrite lookup_delete_eq, Hk. split; intros [secret E]; [discriminate|].
    injection E as ->. discriminate Hv.
  - now rewrite lookup_delete_ne.
Qed.

End entries_facts.

(** ** The renderer *)

Module renderer_facts.
Import Bytes esc resource cli sort_facts render_facts entries_facts.

Section Render.
Variable isPrintTable : Z -> bool.
Variable json_string : string -> string.
Variable json_number : string -> error + string.
Variable json_Value : Value -> error + string.
Variable ToString : Value -> string.

Let render :=
  renderValue isPrintTable json_string json_number json_Value ToString.

Let Quote := strconv.Quote isPrintTable.

Lemma lineOf_nl (e : string * string) :
  lineOf isPrintTable e ++ nl = e.1 ++ "=" ++ Quote e.2 ++ nl.
Proof.
  unfold lineOf, kvpOf, quoted, Quote.
  now rewrite !strconv_facts.append_assoc.
Qed.

(** What [dotenv] writes: the lines of the string entries of
    [environmentVariables], each in one write. *)
Lemma renderValue_dotenv (o : MapOrder) (out : io.Writer)
  (env : Environment) (path : PropertyPath) :
  render o out (Some env) path "dotenv"
  = (app out (map (fun e => e.1 ++ "=" ++ Quote e.2 ++ nl)
                  (stringEntries (variablesOf env))), None).
Proof.
  unfold render, renderValue. simpl (_ =? _)%string. cbv iota.
  rewrite writeAll_spec, getEnvironmentVariables_spec, map_map.
  do 2 f_equal. apply map_ext. intros e. apply lineOf_nl.
Qed.

(** What [shell] writes: the same lines after the word [export]. *)
Lemma renderValue_shell (o : MapOrder) (out : io.Writer)
  (env : Environment) (path : PropertyPath) :
  render o out (Some env) path "shell"
  = (app out (map (fun e => "export " ++ e.1 ++ "=" ++ Quote e.2 ++ nl)
                  (stringEntries (variablesOf env))), None).
Proof.
  unfold render, renderValue. simpl (_ =? _)%string. cbv iota.
  rewrite writeAll_spec, getEnvironmentVariables_spec, map_map.
  do 2 f_equal. apply map_ext. intros e. now rewrite lineOf_nl.
Qed.

End Render.

Lemma variablesOf_map (env : Environment) (vars : gmap string Value)
  (secret : bool) :
  index (Properties env) "environmentVariables" = mkValue (Map vars) secret ->
  variablesOf env = vars.
Proof. intros H. unfold variablesOf. now rewrite H. Qed.

Lemma variablesOf_not_map (env : Environment) :
  isMap (index (Properties env) "environmentVariables") = false ->
  variablesOf env = ∅.
Proof.
  unfold isMap, variablesOf.
  now destruct (Value_Value (index (Properties env) "environmentVariables")).
Qed.

End renderer_facts.

(** * The claims about the renderer *)

Module RenderClaims.
Import Bytes esc resource cli.
Import sort_facts strconv_facts render_facts entries_facts renderer_facts.

Section Render.
Variable isPrintTable : Z -> bool.
Variable json_string : string -> string.
Variable json_number : string -> error + string.
Variable json_Value : Value -> error + string.
Variable ToString : Value -> string.

Let render :=
  renderValue isPrintTable json_string json_number json_Value ToString.

Let Quote := strconv.Quote isPrintTable.

(** C1, as amended. For every entry of the [environmentVariables] mapping
    whose value is a string, the dotenv renderer emits one line
    [KEY=QUOTED], where [QUOTED] is the string in the double-quoted form of
    [strconv.Quote] (the verb [%q]): the lines written are those of the
    string entries, each key once, and the line of the entry is among
    them. The text between the two quotes holds no newline and no double
    quote other than an escaped one; it is the content verbatim when the
    content is made of printable ASCII characters other than the double
    quote and the backslash. *)
Theorem dotenv_line_is_quoted (o : MapOrder) (out : io.Writer)
  (env : Environment) (path : PropertyPath) (vars : gmap string Value)
  (secret0 : bool) (k s : string) (secret : bool) :
  index (Properties env) "environmentVariables" = mkValue (Map vars) secret0 ->
  vars !! k = Some (mkValue (Str s) secret) ->
  render o out (Some env) path "dotenv"
  = (app out (map (fun e => e.1 ++ "=" ++ Quote e.2 ++ nl)
                  (stringEntries vars)), None)
  /\ (k, s) ∈ stringEntries vars
  /\ NoDup (stringEntries vars).*1
  /\ (exists text,
        Quote s = str1 34 ++ text ++ str1 34
        /\ strconv.wellEscaped text = true
        /\ (strconv.plain s = true -> text = s)).
Proof.
  intros Henv Hk. repeat split.
  - unfold render. rewrite renderValue_dotenv.
    now rewrite (variablesOf_map env vars secret0 Henv).
  - apply elem_of_stringEntries. eauto.
  - apply stringEntries_keys_NoDup.
  - exists (strconv.quoteLoop isPrintTable (String.length s) s).
    repeat split.
    + apply wellEscaped_quoteLoop.
    + apply quoteLoop_plain.
Qed.

(** C4. For every environment tree the dotenv and shell renderers emit
    the entries in the strictly increasing byte order of their keys,
    whatever the order in which the mapping is iterated; the tree
    [{environmentVariables: {B: 2, A: 1}}], with the entries inserted in
    either order, gives exactly the line of [A] followed by the line of
    [B]. *)
Theorem dotenv_shell_sorted_by_key (env : Environment) :
  (exists entries : list (string * string),
     StronglySorted (fun a b => sort.lt a.1 b.1) entries
     /\ forall (o : MapOrder) (out : io.Writer) (path : PropertyPath),
          (render o out (Some env) path "dotenv").1
          = app out (map (fun e => e.1 ++ "=" ++ Quote e.2 ++ nl) entries)
          /\ (render o out (Some env) path "shell").1
             = app out (map (fun e => "export " ++ e.1 ++ "=" ++ Quote e.2
                                      ++ nl) entries))
  /\ forall o : MapOrder,
       io.contents (render o [] (Some Samples.treeBA) [] "dotenv").1
       = "A=" ++ str1 34 ++ "1" ++ str1 34 ++ nl
         ++ "B=" ++ str1 34 ++ "2" ++ str1 34 ++ nl
       /\ io.contents (render o [] (Some Samples.treeAB) [] "dotenv").1
          = "A=" ++ str1 34 ++ "1" ++ str1 34 ++ nl
            ++ "B=" ++ str1 34 ++ "2" ++ str1 34 ++ nl.
Proof.
  split.
  - exists (stringEntries (variablesOf env)). split.
    + apply stringEntries_sorted.
    + intros o out path. unfold render.
      now rewrite renderValue_dotenv, renderValue_shell.
  - intros o. unfold render. rewrite !renderValue_dotenv.
    split; vm_compute; reflexivity.
Qed.

(** C7. For every environment tree, the shell renderer writes what the
    dotenv renderer writes on the same tree, each line after the string
    [export ] (with its space), and neither fails; the two runs may
    iterate the mapping in different orders. *)
Theorem shell_is_dotenv_with_export (o1 o2 : MapOrder) (out : io.Writer)
  (env : option Environment) (path : PropertyPath) :
  exists lines : list string,
    render o1 out env path "dotenv" = (app out lines, None)
    /\ render o2 out env path "shell"
       = (app out (map (String.append "export ") lines), None).
Proof.
  destruct env as [env|].
  - exists (map (fun e => e.1 ++ "=" ++ Quote e.2 ++ nl)
                (stringEntries (variablesOf env))).
    unfold render. rewrite renderValue_dotenv, renderValue_shell.
    now rewrite map_map.
  - exists []. simpl. rewrite app_nil_r. split; reflexivity.
Qed.

(** C8. Rendering is deterministic: for every tree, path and format, two
    invocations of [renderValue] write the same bytes and return the same
    error, whatever the orders in which the two iterate the mapping. *)
Theorem renderValue_deterministic (o1 o2 : MapOrder) (out : io.Writer)
  (env : option Environment) (path : PropertyPath) (format : string) :
  render o1 out env path format = render o2 out env path format.
Proof.
  destruct env as [env|]; [|reflexivity].
  unfold render, renderValue.
  now rewrite !getEnvironmentVariables_spec.
Qed.

(** C9. For the formats dotenv and shell: rendering returns no error;
    when the top-level property [environmentVariables] is absent or is not
    a mapping, nothing is written; and an entry of the mapping whose
    value is not a string leaves no trace in the output, which is the one
    of the tree without that entry. *)
Theorem dotenv_shell_skip_non_strings (o : MapOrder) (out : io.Writer)
  (env : Environment) (path : PropertyPath) (format : string) :
  format = "dotenv" \/ format = "shell" ->
  (render o out (Some env) path format).2 = None
  /\ (isMap (index (Properties env) "environmentVariables") = false ->
      (render o out (Some env) path format).1 = out)
  /\ (forall (vars : gmap string Value) (secret : bool) (k : string)
             (v : Value),
        index (Properties env) "environmentVariables"
        = mkValue (Map vars) secret ->
        vars !! k = Some v -> isStr v = false ->
        render o out (Some env) path format
        = render o out
            (Some {| Properties :=
                       <["environmentVariables" :=
                           mkValue (Map (delete k vars)) secret]>
                         (Properties env) |})
            path format).
Proof.
  intros Hformat. unfold render.
  assert (forall vars secret k v,
            index (Properties env) "environmentVariables"
            = mkValue (Map vars) secret ->
            vars !! k = Some v -> isStr v = false ->
            stringEntries
              (variablesOf
                 {| Properties :=
                      <["environmentVariables" :=
                          mkValue (Map (delete k vars)) secret]>
                        (Properties env) |})
            = stringEntries (variablesOf env)) as Hdelete.
  { intros vars secret k v Henv Hk Hv.
    rewrite (variablesOf_map env vars secret Henv).
    rewrite (variablesOf_map _ (delete k vars) secret).
    - now apply (stringEntries_delete vars k v).
    - unfold index. simpl. now rewrite lookup_insert_eq. }
  destruct Hformat as [-> | ->].
  - rewrite renderValue_dotenv. repeat split.
    + intros Hno. simpl. rewrite (variablesOf_not_map env Hno).
      rewrite stringEntries_empty. apply app_nil_r.
    + intros vars secret k v Henv Hk Hv. rewrite renderValue_dotenv.
      now rewrite (Hdelete vars secret k v).
  - rewrite renderValue_shell. repeat split.
    + intros Hno. simpl. rewrite (variablesOf_not_map env Hno).
      rewrite stringEntries_empty. apply app_nil_r.
    + intros vars secret k v Henv Hk Hv. rewrite renderValue_shell.
      now rewrite (Hdelete vars secret k v).
Qed.

(** C10. For every path and format, even an unknown one, [renderValue]
    with a nil environment writes nothing and returns no error. *)
Theorem renderValue_nil (o : MapOrder) (out : io.Writer)
  (path : PropertyPath) (format : string) :
  render o out None path format = (out, None).
Proof. reflexivity. Qed.

(** C5. For every tree and every property path that does not resolve in
    it, rendering goes on with the zero [Value] in place of the missing
    one: the json format writes [null] and a newline and returns no error,
    the string format writes the string of the zero [Value], the detailed
    format returns what the encoder gives for the zero [Value], and the
    formats dotenv and shell return no error. *)
Theorem lookup_miss_renders_zero_value (o : MapOrder) (out : io.Writer)
  (env : Environment) (path : PropertyPath) :
  getEnvValue (NewValue (Properties env)) path = None ->
  render o out (Some env) path "json" = (app out ["null" ++ nl], None)
  /\ render o out (Some env) path "string"
     = (app out [ToString zeroValue ++ nl], None)
  /\ render o out (Some env) path "detailed"
     = Encode out (json_Value zeroValue)
  /\ (render o out (Some env) path "dotenv").2 = None
  /\ (render o out (Some env) path "shell").2 = None.
Proof.
  intros Hmiss.
  assert (negb (length path =? 0)%nat = true) as Hpath.
  { destruct path; [discriminate Hmiss|reflexivity]. }
  unfold render. rewrite renderValue_dotenv, renderValue_shell.
  unfold renderValue. rewrite Hpath, Hmiss. repeat split.
Qed.

End Render.

(** The amended C1 on the entry [HOME] of [Samples.treeMixed]. *)
Lemma dotenv_line_is_quoted_witness :
  index (Properties Samples.treeMixed) "environmentVariables"
  = mkValue (Map Samples.mixedVars) false
  /\ Samples.mixedVars !! "HOME" = Some (mkValue (Str "/root") false)
  /\ (Samples.render Samples.backwardOrder [] (Some Samples.treeMixed) []
        "dotenv"
      = (app [] (map (fun e => e.1 ++ "=" ++ strconv.Quote Samples.noTable e.2
                               ++ nl)
                     (stringEntries Samples.mixedVars)), None)
      /\ ("HOME", "/root") ∈ stringEntries Samples.mixedVars
      /\ NoDup (stringEntries Samples.mixedVars).*1
      /\ (exists text,
            strconv.Quote Samples.noTable "/root"
            = str1 34 ++ text ++ str1 34
            /\ strconv.wellEscaped text = true
            /\ (strconv.plain "/root" = true -> text = "/root"))).
Proof.
  split; [reflexivity|]. split; [reflexivity|].
  apply (dotenv_line_is_quoted Samples.noTable Samples.bareString
           Samples.anyNumber Samples.noDetail Samples.noString
           Samples.backwardOrder [] Samples.treeMixed []
           Samples.mixedVars false "HOME" "/root" false);
    reflexivity.
Defined.

(** C9 on [Samples.treeMixed], whose entry [PORT] is a number. *)
Lemma dotenv_shell_skip_non_strings_witness :
  ("shell" = "dotenv" \/ "shell" = "shell")
  /\ (Samples.render Samples.forwardOrder [] (Some Samples.treeMixed) []
        "shell").2 = None
  /\ Samples.render Samples.forwardOrder [] (Some Samples.treeMixed) []
       "shell"
     = Samples.render Samples.forwardOrder []
         (Some {| Properties :=
                    <["environmentVariables" :=
                        mkValue (Map (delete "PORT" Samples.mixedVars)) false]>
                      (Properties Samples.treeMixed) |})
         [] "shell".
Proof.
  split; [now right|].
  destruct (dotenv_shell_skip_non_strings Samples.noTable Samples.bareString
              Samples.anyNumber Samples.noDetail Samples.noString
              Samples.forwardOrder [] Samples.treeMixed [] "shell"
              (or_intror eq_refl)) as (Hnone & _ & Hskip).
  split; [exact Hnone|].
  apply (Hskip Samples.mixedVars false "PORT" (Samples.num "8080"));
    reflexivity.
Defined.

(** C5 on the tree [{x: {y: 42}}] and the path [x.z]. *)
Lemma lookup_miss_renders_zero_value_witness :
  getEnvValue (NewValue (Properties Samples.treeXY)) [Key "x"; Key "z"] = None
  /\ (Samples.render Samples.forwardOrder [] (Some Samples.treeXY)
        [Key "x"; Key "z"] "json" = (app [] ["null" ++ nl], None)
      /\ Samples.render Samples.forwardOrder [] (Some Samples.treeXY)
           [Key "x"; Key "z"] "string"
         = (app [] [Samples.noString zeroValue ++ nl], None)
      /\ Samples.render Samples.forwardOrder [] (Some Samples.treeXY)
           [Key "x"; Key "z"] "detailed"
         = Encode [] (Samples.noDetail zeroValue)
      /\ (Samples.render Samples.forwardOrder [] (Some Samples.treeXY)
            [Key "x"; Key "z"] "dotenv").2 = None
      /\ (Samples.render Samples.forwardOrder [] (Some Samples.treeXY)
            [Key "x"; Key "z"] "shell").2 = None).
Proof.
  split; [reflexivity|].
  apply (lookup_miss_renders_zero_value Samples.noTable Samples.bareString
           Samples.anyNumber Samples.noDetail Samples.noString
           Samples.forwardOrder [] Samples.treeXY [Key "x"; Key "z"]).
  reflexivity.
Defined.

(** C1, as stated, fails: a value with a double quote, a backslash and a
    newline is written escaped, not verbatim. *)
Lemma dotenv_value_not_verbatim :
  let env := Samples.withVariables {[ "K" := Samples.str Samples.awkward ]} in
  let written :=
    (Samples.render Samples.forwardOrder [] (Some env) [] "dotenv").1 in
  written = ["K=" ++ str1 34 ++ "a" ++ str1 92 ++ str1 34 ++ "b\\\nc"
             ++ str1 34 ++ nl]
  /\ written
     <> ["K=" ++ str1 34 ++ Samples.awkward ++ str1 34 ++ nl].
Proof. split; [vm_compute; reflexivity | vm_compute; discriminate]. Qed.

End RenderClaims.

(** * The claims about the command *)

Module CommandClaims.
Import Bytes esc resource cli.
Import sort_facts strconv_facts render_facts entries_facts renderer_facts.

Section Command.
Variable isPrintTable : Z -> bool.
Variable json_string : string -> string.
Variable json_number : string -> error + string.
Variable json_Value : Value -> error + string.
Variable ToString : Value -> string.
Variable EnvironmentDiagnostic : Type.
Variable client : Client EnvironmentDiagnostic.
Variable getCachedClient : option error.
Variable getEnvName :
  list string -> string * string * list string * option error.
Variable ParsePropertyPath : string -> PropertyPath * option error.
Variable writePropertyEnvironmentDiagnostics :
  io.Writer -> list EnvironmentDiagnostic -> io.Writer * option error.

Let run :=
  RunE isPrintTable json_string json_number json_Value ToString
       EnvironmentDiagnostic client getCachedClient getEnvName
       ParsePropertyPath writePropertyEnvironmentDiagnostics.

Let Quote := strconv.Quote isPrintTable.

(** [openEnvironment] case by case on the answer to the open call. *)
Lemma openEnvironment_spec (orgName envName : string) (duration : Z)
  (w : World) :
  openEnvironment EnvironmentDiagnostic client orgName envName duration w
  = let '(envID, diags, err) :=
      OpenEnvironment EnvironmentDiagnostic client orgName envName duration in
    let w1 := called w (OpenEnvironmentCall orgName envName duration) in
    match err, diags with
    | Some e, _ => ((None, [], Some e), w1)
    | None, _ :: _ => ((None, diags, None), w1)
    | None, [] =>
        let '(open, err) :=
          GetOpenEnvironment EnvironmentDiagnostic client orgName envName
            envID in
        ((open, [], err),
         called w1 (GetOpenEnvironmentCall orgName envName envID))
    end.
Proof.
  unfold openEnvironment, callOpenEnvironment, callGetOpenEnvironment,
    bind, ret, logCall, called.
  destruct (OpenEnvironment _ client orgName envName duration)
    as [[envID diags] err].
  destruct err as [e|]; [reflexivity|].
  destruct diags as [|d diags]; simpl; [|reflexivity].
  now destruct (GetOpenEnvironment _ client orgName envName envID).
Qed.

Lemma checkFormat_path (format : string) (path : PropertyPath) :
  format = "dotenv" \/ format = "shell" -> path <> [] ->
  checkFormat isPrintTable format path
  = Some ("output format '" ++ format
          ++ "' may not be used with a property path").
Proof.
  intros [-> | ->] Hpath; destruct path; try congruence; reflexivity.
Qed.

Lemma checkFormat_unknown (format : string) (path : PropertyPath) :
  format <> "json" -> format <> "detailed" -> format <> "dotenv" ->
  format <> "shell" -> format <> "string" ->
  checkFormat isPrintTable format path
  = Some ("unknown output format " ++ Quote format).
Proof.
  intros H1 H2 H3 H4 H5. unfold checkFormat.
  apply String.eqb_neq in H1, H2, H3, H4, H5.
  now rewrite H1, H2, H3, H4, H5.
Qed.


(** C2, as amended. For every invocation of [openEnvironment], if the
    remote open call returns a non-empty diagnostics list, the fetch call
    is never made and no tree is returned; the diagnostics are returned
    when the open call returned no error, and when it returned an error
    that error is returned without them. In the command nothing is
    rendered: the standard output is left as it was, and the only remote
    call it may have made is the open call. *)
Theorem diagnostics_preempt_fetch (orgName envName : string)
  (duration : Z) (envID : string) (diags : list EnvironmentDiagnostic)
  (err : option error) :
  OpenEnvironment EnvironmentDiagnostic client orgName envName duration
  = (envID, diags, err) ->
  diags <> [] ->
  (forall w : World,
     exists r,
       openEnvironment EnvironmentDiagnostic client orgName envName
         duration w
       = (r, called w (OpenEnvironmentCall orgName envName duration))
       /\ r.1.1 = None
       /\ (err = None -> r = (None, diags, None))
       /\ (forall e, err = Some e -> r = (None, [], Some e)))
  /\ (forall (o : MapOrder) (format : string) (args rest : list string)
             (nameErr : option error) (w : World),
        getEnvName args = (orgName, envName, rest, nameErr) ->
        stdout (run o format duration args w).2 = stdout w
        /\ (calls (run o format duration args w).2 = calls w
            \/ calls (run o format duration args w).2
               = app (calls w)
                     [OpenEnvironmentCall orgName envName duration])).
Proof.
  intros Hopen Hdiags. split.
  - intros w. rewrite openEnvironment_spec, Hopen.
    destruct err as [e|].
    + eexists. split; [reflexivity|]. repeat split; [discriminate|].
      now intros e' [= ->].
    + destruct diags as [|d diags']; [congruence|].
      eexists. split; [reflexivity|]. repeat split. discriminate.
  - intros o format args rest nameErr w Hname. unfold run, RunE.
    destruct getCachedClient; [now split; [|left]|].
    rewrite Hname. destruct nameErr; [now split; [|left]|].
    destruct (match rest with
              | [a] =>
                  let '(p, err0) := ParsePropertyPath a in
                  match err0 with
                  | Some err1 =>
                      inl ("invalid property path " ++ a ++ ": " ++ err1)
                  | None => inr p
                  end
              | _ => inr []
              end) as [e|path]; [now split; [|left]|].
    destruct (checkFormat isPrintTable format path);
      [now split; [|left]|].
    unfold bind. rewrite openEnvironment_spec, Hopen.
    destruct err as [e|]; [now split; [|right]|].
    destruct diags as [|d diags']; [congruence|].
    simpl. unfold onStderr. simpl.
    destruct (writePropertyEnvironmentDiagnostics (stderr w) (d :: diags')).
    now split; [|right].
Qed.

(** C3. For every invocation where the format is dotenv or shell and the
    supplied property path is non-empty, the command returns an error and
    leaves the world as it was: no remote call is made, neither the open
    nor the fetch call, and nothing is written. When the steps before the
    check of the format succeed, the error is the user error about the
    format and the property path. *)
Theorem path_with_dotenv_or_shell_rejected (o : MapOrder)
  (format : string) (duration : Z) (args : list string) (w : World)
  (orgName envName a : string) (nameErr : option error)
  (p : PropertyPath) (parseErr : option error) :
  format = "dotenv" \/ format = "shell" ->
  getEnvName args = (orgName, envName, [a], nameErr) ->
  ParsePropertyPath a = (p, parseErr) ->
  p <> [] ->
  exists e,
    run o format duration args w = (Some e, w)
    /\ (getCachedClient = None -> nameErr = None -> parseErr = None ->
        e = "output format '" ++ format
            ++ "' may not be used with a property path").
Proof.
  intros Hformat Hname Hparse Hp. unfold run, RunE.
  destruct getCachedClient as [e|];
    [exists e; split; [reflexivity|discriminate]|].
  rewrite Hname. destruct nameErr as [e|];
    [exists e; split; [reflexivity|discriminate]|].
  rewrite Hparse. destruct parseErr as [e|].
  - eexists. split; [reflexivity|discriminate].
  - rewrite (checkFormat_path format p Hformat Hp).
    eexists. split; reflexivity.
Qed.

(** C6, as amended. For every format identifier outside the set json,
    detailed, dotenv, shell, string, the command returns an error and
    leaves the world as it was, so no remote call is attempted. When the
    steps before the check of the format succeed, the message of the
    error is [unknown output format] followed by the identifier in the
    double-quoted form of [strconv.Quote] (the verb [%q]); the message
    contains the identifier literally when the identifier is made of
    printable ASCII characters other than the double quote and the
    backslash. *)
Theorem unknown_format_rejected (o : MapOrder) (format : string)
  (duration : Z) (args : list string) (w : World) :
  format <> "json" -> format <> "detailed" -> format <> "dotenv" ->
  format <> "shell" -> format <> "string" ->
  exists e,
    run o format duration args w = (Some e, w)
    /\ (getCachedClient = None ->
        (getEnvName args).2 = None ->
        (forall a, (getEnvName args).1.2 = [a] ->
                   (ParsePropertyPath a).2 = None) ->
        e = "unknown output format " ++ Quote format)
    /\ (strconv.plain format = true ->
        contains format ("unknown output format " ++ Quote format) = true).
Proof.
  intros H1 H2 H3 H4 H5.
  assert (strconv.plain format = true ->
          contains format ("unknown output format " ++ Quote format) = true)
    as Hcontains.
  { intros Hplain. unfold Quote. rewrite (Quote_plain _ _ Hplain).
    rewrite <- append_assoc. apply contains_app. }
  unfold run, RunE.
  destruct getCachedClient as [e|];
    [exists e; repeat split; [discriminate|exact Hcontains]|].
  destruct (getEnvName args) as [[[orgName envName] rest] nameErr].
  destruct nameErr as [e|];
    [exists e; repeat split; [discriminate|exact Hcontains]|].
  destruct rest as [|a [|b rest]].
  - rewrite (checkFormat_unknown format [] H1 H2 H3 H4 H5).
    eexists. repeat split. exact Hcontains.
  - destruct (ParsePropertyPath a) as [p [e|]] eqn:Hparse.
    + eexists. repeat split; [|exact Hcontains].
      intros _ _ Hok. specialize (Hok a eq_refl).
      rewrite Hparse in Hok. discriminate.
    + rewrite (checkFormat_unknown format p H1 H2 H3 H4 H5).
      eexists. repeat split. exact Hcontains.
  - rewrite (checkFormat_unknown format [] H1 H2 H3 H4 H5).
    eexists. repeat split. exact Hcontains.
Qed.

End Command.

End CommandClaims.

Module CommandWitnesses.
Import Bytes esc resource cli CommandClaims.

(** The amended C2 on a service that answers the open call with one
    diagnostic and no error. *)
Lemma diagnostics_preempt_fetch_witness :
  OpenEnvironment string Samples.diagnosingClient "org" "env" 7200
  = ("session", ["bad reference"], None)
  /\ ["bad reference"] <> []
  /\ (exists r,
        openEnvironment string Samples.diagnosingClient "org" "env" 7200
          initial
        = (r, called initial (OpenEnvironmentCall "org" "env" 7200))
        /\ r.1.1 = None
        /\ (@None error = None -> r = (None, ["bad reference"], None))
        /\ (forall e : error, None = Some e -> r = (None, [], Some e)))
  /\ stdout (Samples.command Samples.diagnosingClient Samples.forwardOrder
               "json" 7200 ["env"] initial).2 = stdout initial
  /\ (calls (Samples.command Samples.diagnosingClient Samples.forwardOrder
               "json" 7200 ["env"] initial).2 = calls initial
      \/ calls (Samples.command Samples.diagnosingClient
                  Samples.forwardOrder "json" 7200 ["env"] initial).2
         = app (calls initial) [OpenEnvironmentCall "org" "env" 7200]).
Proof.
  split; [reflexivity|]. split; [discriminate|].
  destruct (diagnostics_preempt_fetch Samples.noTable Samples.bareString
              Samples.anyNumber Samples.noDetail Samples.noString string
              Samples.diagnosingClient None Samples.splitName Samples.oneKey
              Samples.reportAll "org" "env" 7200 "session"
              ["bad reference"] None eq_refl
              ltac:(discriminate)) as [Hopen Hrun].
  split; [exact (Hopen initial)|].
  exact (Hrun Samples.forwardOrder "json" ["env"] [] None initial eq_refl).
Defined.

(** C2, as stated, fails: when the open call returns diagnostics together
    with an error, the diagnostics are not returned. *)
Lemma openEnvironment_error_drops_diagnostics :
  OpenEnvironment string Samples.failingClient "org" "env" 7200
  = ("session", ["bad reference"], Some "boom")
  /\ (openEnvironment string Samples.failingClient "org" "env" 7200
        initial).1
     = (None, [], Some "boom").
Proof. split; reflexivity. Qed.

(** C3 on the format dotenv with the property path [a]. *)
Lemma path_with_dotenv_or_shell_rejected_witness :
  ("dotenv" = "dotenv" \/ "dotenv" = "shell")
  /\ Samples.splitName ["env"; "a"] = ("org", "env", ["a"], None)
  /\ Samples.oneKey "a" = ([Key "a"], None)
  /\ [Key "a"] <> []
  /\ exists e,
       Samples.command Samples.servingClient Samples.forwardOrder "dotenv"
         7200 ["env"; "a"] initial = (Some e, initial)
       /\ (@None error = None -> @None error = None ->
           @None error = None ->
           e = "output format '" ++ "dotenv"
               ++ "' may not be used with a property path").
Proof.
  split; [now left|]. split; [reflexivity|]. split; [reflexivity|].
  split; [discriminate|].
  apply (path_with_dotenv_or_shell_rejected Samples.noTable
           Samples.bareString Samples.anyNumber Samples.noDetail
           Samples.noString string Samples.servingClient None
           Samples.splitName Samples.oneKey Samples.reportAll
           Samples.forwardOrder "dotenv" 7200 ["env"; "a"] initial
           "org" "env" "a" None [Key "a"] None);
    [now left | reflexivity | reflexivity | discriminate].
Defined.

(** The amended C6 on the format [bogus]. *)
Lemma unknown_format_rejected_witness :
  "bogus" <> "json" /\ "bogus" <> "detailed" /\ "bogus" <> "dotenv"
  /\ "bogus" <> "shell" /\ "bogus" <> "string"
  /\ exists e,
       Samples.command Samples.servingClient Samples.forwardOrder "bogus"
         7200 ["env"] initial = (Some e, initial)
       /\ (@None error = None ->
           (Samples.splitName ["env"]).2 = None ->
           (forall a, (Samples.splitName ["env"]).1.2 = [a] ->
                      (Samples.oneKey a).2 = None) ->
           e = "unknown output format "
               ++ strconv.Quote Samples.noTable "bogus")
       /\ (strconv.plain "bogus" = true ->
           contains "bogus"
             ("unknown output format "
              ++ strconv.Quote Samples.noTable "bogus") = true).
Proof.
  repeat (split; [discriminate|]).
  apply (unknown_format_rejected Samples.noTable Samples.bareString
           Samples.anyNumber Samples.noDetail Samples.noString string
           Samples.servingClient None Samples.splitName Samples.oneKey
           Samples.reportAll Samples.forwardOrder "bogus" 7200 ["env"]
           initial); discriminate.
Defined.

(** C6, as stated, fails: the identifier [Samples.quoteFormat] is outside
    the set, and the message of the error holds it escaped, not
    literally. *)
Lemma unknown_format_is_quoted :
  ~ In Samples.quoteFormat ["json"; "detailed"; "dotenv"; "shell"; "string"]
  /\ Samples.command Samples.servingClient Samples.forwardOrder
       Samples.quoteFormat 7200 ["env"] initial
     = (Some ("unknown output format " ++ str1 34 ++ "a" ++ str1 92
              ++ str1 34 ++ "b" ++ str1 34), initial)
  /\ contains Samples.quoteFormat
       ("unknown output format " ++ str1 34 ++ "a" ++ str1 92
        ++ str1 34 ++ "b" ++ str1 34) = false.
Proof.
  split; [|split; vm_compute; reflexivity].
  simpl. intros [H|[H|[H|[H|[H|[]]]]]]; discriminate H.
Qed.

End CommandWitnesses.

(** * The scenarios of the specification, run on the model *)

Module Scenarios.
Import Bytes esc resource cli.

(** The tree [{environmentVariables: {B: 2, A: 1}}] in the format shell,
    with the map iterated backwards. *)
Example shell_BA :
  io.contents
    (Samples.render Samples.backwardOrder [] (Some Samples.treeBA) []
       "shell").1
  = "export A=" ++ str1 34 ++ "1" ++ str1 34 ++ nl
    ++ "export B=" ++ str1 34 ++ "2" ++ str1 34 ++ nl.
Proof. vm_compute. reflexivity. Qed.

(** A number is skipped, an awkward string is escaped. *)
Example dotenv_mixed :
  (Samples.render Samples.forwardOrder [] (Some Samples.treeMixed) []
     "dotenv").1
  = ["HOME=" ++ str1 34 ++ "/root" ++ str1 34 ++ nl;
     "NOTE=" ++ str1 34 ++ "a" ++ str1 92 ++ str1 34 ++ "b\\\nc"
       ++ str1 34 ++ nl].
Proof. vm_compute. reflexivity. Qed.

(** The tree [{x: {y: 42}}], the path [x.y], the format json. *)
Example json_x_y :
  Samples.render Samples.forwardOrder [] (Some Samples.treeXY)
    [Key "x"; Key "y"] "json"
  = (["42" ++ nl], None).
Proof. vm_compute. reflexivity. Qed.

(** The whole tree in the format json, indented by two spaces. *)
Example json_whole :
  io.contents
    (Samples.render Samples.forwardOrder [] (Some Samples.treeXY) []
       "json").1
  = "{" ++ nl
    ++ "  " ++ str1 34 ++ "x" ++ str1 34 ++ ": {" ++ nl
    ++ "    " ++ str1 34 ++ "y" ++ str1 34 ++ ": 42" ++ nl
    ++ "  }" ++ nl
    ++ "}" ++ nl.
Proof. vm_compute. reflexivity. Qed.

(** An invalid byte and a control character in a quoted string. *)
Example Quote_bytes :
  strconv.Quote Samples.noTable (str1 0xFF ++ str1 1 ++ str1 0xC3 ++ str1 0xA9)
  = str1 34 ++ "\xff\x01" ++ str1 0xC3 ++ str1 0xA9 ++ str1 34.
Proof. vm_compute. reflexivity. Qed.

(** Runes of two, three and four bytes are decoded to what was encoded;
    a surrogate and an overlong encoding are invalid. *)
Example utf8_round_trip :
  map (fun r => utf8.DecodeRuneInString (utf8.AppendRune r))
      [0xE9; 0x20AC; 0x1F600]
  = [(0xE9, 2%nat); (0x20AC, 3%nat); (0x1F600, 4%nat)].
Proof. vm_compute. reflexivity. Qed.

Example utf8_invalid :
  map utf8.DecodeRuneInString
      [utf8.bytes [0xED; 0xA0; 0x80]; utf8.bytes [0xC0; 0x80];
       utf8.bytes [0xE2; 0x82]]
  = [(utf8.RuneError, 1%nat); (utf8.RuneError, 1%nat);
     (utf8.RuneError, 1%nat)].
Proof. vm_compute. reflexivity. Qed.

(** A run of the command that opens and renders: both remote calls are
    made, in their order, and the two lines reach the standard output. *)
Example command_dotenv :
  Samples.command Samples.servingClient Samples.forwardOrder "dotenv" 7200
    ["env"] initial
  = (None,
     {| calls := [OpenEnvironmentCall "org" "env" 7200;
                  GetOpenEnvironmentCall "org" "env" "session"];
        stdout := ["A=" ++ str1 34 ++ "1" ++ str1 34 ++ nl;
                   "B=" ++ str1 34 ++ "2" ++ str1 34 ++ nl];
        stderr := [] |}).
Proof. vm_compute. reflexivity. Qed.

(** A run that meets a diagnostic: one remote call, nothing on the
    standard output. *)
Example command_diagnostics :
  Samples.command Samples.diagnosingClient Samples.forwardOrder "json" 7200
    ["env"] initial
  = (None,
     {| calls := [OpenEnvironmentCall "org" "env" 7200];
        stdout := [];
        stderr := ["bad reference"] |}).
Proof. vm_compute. reflexivity. Qed.

(** The format [bogus]: an error that names it, and an untouched world. *)
Example command_bogus :
  Samples.command Samples.servingClient Samples.forwardOrder "bogus" 7200
    ["env"] initial
  = (Some ("unknown output format " ++ str1 34 ++ "bogus" ++ str1 34),
     initial).
Proof. vm_compute. reflexivity. Qed.

End Scenarios.

(** * Further properties of the command *)

Module CommandExtras.
Import Bytes esc resource cli Derived.
Import CommandClaims.

Section Command.
Variable isPrintTable : Z -> bool.
Variable json_string : string -> string.
Variable json_number : string -> error + string.
Variable json_Value : Value -> error + string.
Variable ToString : Value -> string.
Variable EnvironmentDiagnostic : Type.
Variable client : Client EnvironmentDiagnostic.
Variable getCachedClient : option error.
Variable getEnvName :
  list string -> string * string * list string * option error.
Variable ParsePropertyPath : string -> PropertyPath * option error.
Variable writePropertyEnvironmentDiagnostics :
  io.Writer -> list EnvironmentDiagnostic -> io.Writer * option error.

Let run :=
  RunE isPrintTable json_string json_number json_Value ToString
       EnvironmentDiagnostic client getCachedClient getEnvName
       ParsePropertyPath writePropertyEnvironmentDiagnostics.

Let open := openEnvironment EnvironmentDiagnostic client.

Let render :=
  renderValue isPrintTable json_string json_number json_Value ToString.

(** [RunE] up to the call of [openEnvironment], with the steps named. *)
Lemma RunE_steps (o : MapOrder) (format : string) (duration : Z)
  (args : list string) (w : World) :
  run o format duration args w
  = match getCachedClient with
    | Some e => (Some e, w)
    | None =>
        let '(orgName, envName, rest, nameErr) := getEnvName args in
        match nameErr with
        | Some e => (Some e, w)
        | None =>
            match parsePath ParsePropertyPath rest with
            | inl e => (Some e, w)
            | inr path =>
                match checkFormat isPrintTable format path with
                | Some e => (Some e, w)
                | None =>
                    let '(env, diags, err, w1) :=
                      open orgName envName duration w in
                    match err, diags with
                    | Some e, _ => (Some e, w1)
                    | None, _ :: _ =>
                        onStderr (fun out =>
                          writePropertyEnvironmentDiagnostics out diags) w1
                    | None, [] =>
                        onStdout (fun out =>
                          render o out env path format) w1
                    end
                end
            end
        end
    end.
Proof.
  unfold run, RunE, parsePath, open, render.
  destruct getCachedClient; [reflexivity|].
  destruct (getEnvName args) as [[[orgName envName] rest] nameErr].
  destruct nameErr; [reflexivity|].
  assert (forall path,
            match checkFormat isPrintTable format path with
            | Some err => ret (Some err)
            | None =>
                do (env, diags, err) <-
                  openEnvironment EnvironmentDiagnostic client orgName
                    envName duration ;;
                match err with
                | Some err => ret (Some err)
                | None =>
                    if negb (length diags =? 0)%nat then
                      onStderr (fun out =>
                        writePropertyEnvironmentDiagnostics out diags)
                    else
                      onStdout (fun out =>
                        renderValue isPrintTable json_string json_number
                          json_Value ToString o out env path format)
                end
            end w
            = match checkFormat isPrintTable format path with
              | Some e => (Some e, w)
              | None =>
                  let '(env, diags, err, w1) :=
                    openEnvironment EnvironmentDiagnostic client orgName
                      envName duration w in
                  match err, diags with
                  | Some e, _ => (Some e, w1)
                  | None, _ :: _ =>
                      onStderr (fun out =>
                        writePropertyEnvironmentDiagnostics out diags) w1
                  | None, [] =>
                      onStdout (fun out =>
                        renderValue isPrintTable json_string json_number
                          json_Value ToString o out env path format) w1
                  end
              end) as Hrest.
  { intros path.
    destruct (checkFormat isPrintTable format path); [reflexivity|].
    unfold bind, ret.
    destruct (openEnvironment EnvironmentDiagnostic client orgName envName
                duration w) as [[[env diags] err] w1].
    destruct err; [reflexivity|]. now destruct diags. }
  destruct rest as [|a [|b rest]]; try apply Hrest.
  destruct (ParsePropertyPath a) as [p [e|]]; [reflexivity|apply Hrest].
Qed.

(** The [switch] of [RunE] lets through what [acceptedFormat] says. *)
Lemma checkFormat_None (format : string) (path : PropertyPath) :
  checkFormat isPrintTable format path = None <-> acceptedFormat format path.
Proof.
  unfold checkFormat, acceptedFormat.
  destruct (format =? "detailed")%string eqn:E1;
    [apply String.eqb_eq in E1; tauto|].
  destruct (format =? "json")%string eqn:E2;
    [apply String.eqb_eq in E2; tauto|].
  destruct (format =? "string")%string eqn:E3;
    [apply String.eqb_eq in E3; tauto|].
  apply String.eqb_neq in E1, E2, E3. simpl.
  destruct (format =? "dotenv")%string eqn:E4.
  - apply String.eqb_eq in E4. destruct path; simpl; split;
      try tauto; try discriminate.
    intros [?|[?|[?|[_ ?]]]]; congruence.
  - destruct (format =? "shell")%string eqn:E5.
    + apply String.eqb_eq in E5. destruct path; simpl; split;
        try tauto; try discriminate.
      intros [?|[?|[?|[_ ?]]]]; congruence.
    + apply String.eqb_neq in E4, E5. simpl. split; [discriminate|].
      intros [?|[?|[?|[[?|?] _]]]]; congruence.
Qed.

Lemma calls_grow (l : list Call) (c : Call) (more : list Call) :
  app l (c :: more) <> l.
Proof.
  intros H. apply (f_equal (@length Call)) in H.
  rewrite length_app in H. simpl in H. lia.
Qed.

(** X1. [openEnvironment] makes the open call first, and makes the fetch
    call exactly when the open call returned neither an error nor a
    diagnostic, with the session that the open call returned; it writes
    to neither stream. *)
Theorem openEnvironment_fetches_iff_clean (orgName envName : string)
  (duration : Z) (w : World) :
  let answer :=
    OpenEnvironment EnvironmentDiagnostic client orgName envName duration in
  let w' := (open orgName envName duration w).2 in
  stdout w' = stdout w /\ stderr w' = stderr w
  /\ ((answer.2 = None /\ answer.1.2 = []
       /\ calls w'
          = app (calls w)
                [OpenEnvironmentCall orgName envName duration;
                 GetOpenEnvironmentCall orgName envName answer.1.1])
      \/ ((answer.2 <> None \/ answer.1.2 <> [])
          /\ calls w'
             = app (calls w)
                   [OpenEnvironmentCall orgName envName duration])).
Proof.
  unfold open. rewrite openEnvironment_spec.
  destruct (OpenEnvironment _ client orgName envName duration)
    as [[envID diags] err]. simpl.
  destruct err as [e|].
  - repeat split. right. split; [left; discriminate|reflexivity].
  - destruct diags as [|d diags].
    + destruct (GetOpenEnvironment _ client orgName envName envID).
      simpl. repeat split. left. repeat split.
      now rewrite <- app_assoc.
    + repeat split. right. split; [right; discriminate|reflexivity].
Qed.

(** X2. When the open call returns no error and no diagnostic,
    [openEnvironment] returns what the fetch call returns, the tree and
    the error together, with nil diagnostics, after the two calls in
    their order. *)
Theorem openEnvironment_returns_fetch (orgName envName : string)
  (duration : Z) (w : World) (envID : string)
  (tree : option Environment) (err : option error) :
  OpenEnvironment EnvironmentDiagnostic client orgName envName duration
  = (envID, [], None) ->
  GetOpenEnvironment EnvironmentDiagnostic client orgName envName envID
  = (tree, err) ->
  open orgName envName duration w
  = ((tree, [], err),
     called (called w (OpenEnvironmentCall orgName envName duration))
            (GetOpenEnvironmentCall orgName envName envID)).
Proof.
  intros Hopen Hget. unfold open.
  now rewrite openEnvironment_spec, Hopen, Hget.
Qed.

(** X3. A property path that does not parse is a user error that names
    the argument and the cause; it is returned whatever the format is,
    before the format is looked at, and the world is left as it was. *)
Theorem RunE_invalid_property_path (o : MapOrder) (format : string)
  (duration : Z) (args : list string) (w : World)
  (orgName envName a : string) (p : PropertyPath) (e : error) :
  getCachedClient = None ->
  getEnvName args = (orgName, envName, [a], None) ->
  ParsePropertyPath a = (p, Some e) ->
  run o format duration args w
  = (Some ("invalid property path " ++ a ++ ": " ++ e), w).
Proof.
  intros Hclient Hname Hparse. rewrite RunE_steps, Hclient, Hname.
  unfold parsePath. now rewrite Hparse.
Qed.

(** X4. The command contacts the remote service exactly when the client
    and the name of the environment are obtained, the property path
    parses, and the format goes with the path: json, detailed and string
    with any path, dotenv and shell with the empty path only. *)
Theorem RunE_contacts_remote_iff_accepted (o : MapOrder) (format : string)
  (duration : Z) (args : list string) (w : World) :
  calls (run o format duration args w).2 <> calls w
  <-> getCachedClient = None
      /\ (getEnvName args).2 = None
      /\ exists path,
           parsePath ParsePropertyPath (getEnvName args).1.2 = inr path
           /\ acceptedFormat format path.
Proof.
  rewrite RunE_steps.
  destruct getCachedClient as [e|];
    [simpl; split; [congruence|intros [? _]; discriminate]|].
  destruct (getEnvName args) as [[[orgName envName] rest] nameErr]. simpl.
  destruct nameErr as [e|];
    [simpl; split; [congruence|intros (_ & ? & _); discriminate]|].
  destruct (parsePath ParsePropertyPath rest) as [e|path];
    [simpl; split; [congruence|intros (_ & _ & ? & ? & _); discriminate]|].
  destruct (checkFormat isPrintTable format path) as [e|] eqn:Hformat.
  - simpl. split; [congruence|]. intros (_ & _ & path' & [= <-] & Hacc).
    apply checkFormat_None in Hacc. congruence.
  - split.
    + intros _. repeat split. exists path. split; [reflexivity|].
      now apply checkFormat_None.
    + intros _. unfold open. rewrite openEnvironment_spec.
      destruct (OpenEnvironment _ client orgName envName duration)
        as [[envID diags] err].
      destruct err as [e|]; [apply calls_grow|].
      destruct diags as [|d diags].
      * destruct (GetOpenEnvironment _ client orgName envName envID)
          as [tree [e|]];
          [simpl; rewrite <- app_assoc; apply calls_grow|].
        unfold onStdout.
        destruct (render o _ _ path format). simpl.
        rewrite <- app_assoc. apply calls_grow.
      * unfold onStderr.
        destruct (writePropertyEnvironmentDiagnostics _ _). simpl.
        apply calls_grow.
Qed.

(** X5. When the command makes no remote call it has failed and has left
    the world as it was: it neither succeeds nor writes anything without
    contacting the remote service. *)
Theorem RunE_without_call_fails_clean (o : MapOrder) (format : string)
  (duration : Z) (args : list string) (w : World) :
  calls (run o format duration args w).2 = calls w ->
  (run o format duration args w).2 = w
  /\ exists e, (run o format duration args w).1 = Some e.
Proof.
  rewrite RunE_steps.
  destruct getCachedClient as [e|]; [simpl; eauto|].
  destruct (getEnvName args) as [[[orgName envName] rest] nameErr].
  destruct nameErr as [e|]; [simpl; eauto|].
  destruct (parsePath ParsePropertyPath rest) as [e|path]; [simpl; eauto|].
  destruct (checkFormat isPrintTable format path) as [e|]; [simpl; eauto|].
  unfold open. rewrite openEnvironment_spec.
  destruct (OpenEnvironment _ client orgName envName duration)
    as [[envID diags] err].
  destruct err as [e|]; [intros H; destruct (calls_grow _ _ _ H)|].
  destruct diags as [|d diags].
  - destruct (GetOpenEnvironment _ client orgName envName envID)
      as [tree [e|]].
    + simpl. rewrite <- app_assoc. intros H.
      destruct (calls_grow _ _ _ H).
    + unfold onStdout. destruct (render o _ _ path format). simpl.
      rewrite <- app_assoc. intros H. destruct (calls_grow _ _ _ H).
  - unfold onStderr.
    destruct (writePropertyEnvironmentDiagnostics _ _). simpl.
    intros H. destruct (calls_grow _ _ _ H).
Qed.

(** X6. The command follows the open protocol on every input: it makes no
    remote call, or the open call alone, or the open call followed by the
    fetch call for the session that the open call returned, all for the
    environment named by the arguments and with the lifetime of the flag.
    It writes to the standard output only after both calls, to the
    standard error only after the open call alone, and never to both. *)
Theorem RunE_call_protocol (o : MapOrder) (format : string)
  (duration : Z) (args : list string) (w : World) :
  let orgName := (getEnvName args).1.1.1 in
  let envName := (getEnvName args).1.1.2 in
  let opened := OpenEnvironmentCall orgName envName duration in
  let fetched :=
    GetOpenEnvironmentCall orgName envName
      (OpenEnvironment EnvironmentDiagnostic client orgName envName
         duration).1.1 in
  let w' := (run o format duration args w).2 in
  (calls w' = calls w \/ calls w' = app (calls w) [opened]
   \/ calls w' = app (calls w) [opened; fetched])
  /\ (stdout w' <> stdout w ->
      calls w' = app (calls w) [opened; fetched] /\ stderr w' = stderr w)
  /\ (stderr w' <> stderr w ->
      calls w' = app (calls w) [opened] /\ stdout w' = stdout w).
Proof.
  rewrite RunE_steps.
  destruct getCachedClient as [e|]; [simpl; tauto|].
  destruct (getEnvName args) as [[[orgName envName] rest] nameErr].
  destruct nameErr as [e|]; [simpl; tauto|].
  destruct (parsePath ParsePropertyPath rest) as [e|path]; [simpl; tauto|].
  destruct (checkFormat isPrintTable format path) as [e|]; [simpl; tauto|].
  unfold open. rewrite openEnvironment_spec. simpl.
  destruct (OpenEnvironment _ client orgName envName duration)
    as [[envID diags] err].
  destruct err as [e|]; [simpl; tauto|].
  destruct diags as [|d diags].
  - destruct (GetOpenEnvironment _ client orgName envName envID)
      as [tree [e|]].
    + simpl. rewrite <- app_assoc. simpl. tauto.
    + unfold onStdout. destruct (render o _ _ path format). simpl.
      rewrite <- app_assoc. simpl. tauto.
  - unfold onStderr.
    destruct (writePropertyEnvironmentDiagnostics _ _). simpl. tauto.
Qed.

(** X7. Once the input is accepted, an error of the remote service is
    returned as it is and nothing is written: the error of the open call
    after that call alone, whatever session and diagnostics came with it,
    and the error of the fetch call after both calls, whatever tree came
    with it. *)
Theorem RunE_remote_error (o : MapOrder) (format : string)
  (duration : Z) (args : list string) (w : World)
  (orgName envName : string) (rest : list string) (path : PropertyPath) :
  getCachedClient = None ->
  getEnvName args = (orgName, envName, rest, None) ->
  parsePath ParsePropertyPath rest = inr path ->
  acceptedFormat format path ->
  (forall envID diags e,
     OpenEnvironment EnvironmentDiagnostic client orgName envName duration
     = (envID, diags, Some e) ->
     run o format duration args w
     = (Some e, called w (OpenEnvironmentCall orgName envName duration)))
  /\ (forall envID tree e,
        OpenEnvironment EnvironmentDiagnostic client orgName envName
          duration = (envID, [], None) ->
        GetOpenEnvironment EnvironmentDiagnostic client orgName envName
          envID = (tree, Some e) ->
        run o format duration args w
        = (Some e,
           called (called w (OpenEnvironmentCall orgName envName duration))
                  (GetOpenEnvironmentCall orgName envName envID))).
Proof.
  intros Hclient Hname Hparse Hacc. apply checkFormat_None in Hacc.
  split.
  - intros envID diags e Hopen.
    rewrite RunE_steps, Hclient, Hname, Hparse, Hacc.
    unfold open. now rewrite openEnvironment_spec, Hopen.
  - intros envID tree e Hopen Hget.
    rewrite RunE_steps, Hclient, Hname, Hparse, Hacc.
    unfold open. now rewrite openEnvironment_spec, Hopen, Hget.
Qed.

(** X8. Once the input is accepted and the two remote calls succeed
    without diagnostics, the command is [renderValue] of the fetched
    environment on the standard output, with the parsed path and the
    format: its error is the one of [renderValue], the standard error is
    left as it was, and the two calls were made in their order. *)
Theorem RunE_renders_fetched (o : MapOrder) (format : string)
  (duration : Z) (args : list string) (w : World)
  (orgName envName : string) (rest : list string) (path : PropertyPath)
  (envID : string) (tree : option Environment) :
  getCachedClient = None ->
  getEnvName args = (orgName, envName, rest, None) ->
  parsePath ParsePropertyPath rest = inr path ->
  acceptedFormat format path ->
  OpenEnvironment EnvironmentDiagnostic client orgName envName duration
  = (envID, [], None) ->
  GetOpenEnvironment EnvironmentDiagnostic client orgName envName envID
  = (tree, None) ->
  run o format duration args w
  = ((render o (stdout w) tree path format).2,
     {| calls := app (calls w)
                     [OpenEnvironmentCall orgName envName duration;
                      GetOpenEnvironmentCall orgName envName envID];
        stdout := (render o (stdout w) tree path format).1;
        stderr := stderr w |}).
Proof.
  intros Hclient Hname Hparse Hacc Hopen Hget.
  apply checkFormat_None in Hacc.
  rewrite RunE_steps, Hclient, Hname, Hparse, Hacc.
  unfold open. rewrite openEnvironment_spec, Hopen, Hget.
  unfold onStdout, called. simpl.
  destruct (render o (stdout w) tree path format). simpl.
  now rewrite <- app_assoc.
Qed.

(** X9. Once the input is accepted and the open call returns diagnostics
    without an error, the command hands them to the writer of
    diagnostics on the standard error and returns the error of that
    writer, nil when the writer succeeds: diagnostics alone do not make
    the command fail. *)
Theorem RunE_reports_diagnostics (o : MapOrder) (format : string)
  (duration : Z) (args : list string) (w : World)
  (orgName envName : string) (rest : list string) (path : PropertyPath)
  (envID : string) (d : EnvironmentDiagnostic)
  (diags : list EnvironmentDiagnostic) :
  getCachedClient = None ->
  getEnvName args = (orgName, envName, rest, None) ->
  parsePath ParsePropertyPath rest = inr path ->
  acceptedFormat format path ->
  OpenEnvironment EnvironmentDiagnostic client orgName envName duration
  = (envID, d :: diags, None) ->
  run o format duration args w
  = ((writePropertyEnvironmentDiagnostics (stderr w) (d :: diags)).2,
     {| calls := app (calls w)
                     [OpenEnvironmentCall orgName envName duration];
        stdout := stdout w;
        stderr :=
          (writePropertyEnvironmentDiagnostics (stderr w) (d :: diags)).1
     |}).
Proof.
  intros Hclient Hname Hparse Hacc Hopen.
  apply checkFormat_None in Hacc.
  rewrite RunE_steps, Hclient, Hname, Hparse, Hacc.
  unfold open. rewrite openEnvironment_spec, Hopen.
  unfold onStderr, called. simpl.
  now destruct (writePropertyEnvironmentDiagnostics (stderr w) (d :: diags)).
Qed.

End Command.

End CommandExtras.

(** * Further properties of the renderer *)

Module RenderExtras.
Import Bytes esc resource cli Derived.
Import sort_facts strconv_facts render_facts entries_facts renderer_facts.

Lemma lt_le (a b : string) : sort.lt a b -> sort.le a b.
Proof.
  unfold sort.lt, String.ltb. rewrite le_compare.
  destruct (String.compare a b); congruence.
Qed.

Lemma lt_trans (a b c : string) : sort.lt a b -> sort.lt b c -> sort.lt a c.
Proof.
  intros Hab Hbc. apply le_ne_lt.
  - transitivity b; now apply lt_le.
  - intros ->. exact (lt_asym _ _ Hab Hbc).
Qed.

Lemma lt_trichotomy (a b : string) : sort.lt a b \/ a = b \/ sort.lt b a.
Proof.
  unfold sort.lt, String.ltb. rewrite (String.compare_antisym b a).
  destruct (String.compare a b) eqn:E; simpl; auto.
  apply String.compare_eq_iff in E. auto.
Qed.

#[local] Instance lt_dec (a b : string) : Decision (sort.lt a b).
Proof. unfold sort.lt. apply _. Defined.

Lemma StronglySorted_filter {A : Type} (R : relation A) (P : A -> Prop)
  `{forall x, Decision (P x)} (l : list A) :
  StronglySorted R l -> StronglySorted R (filter P l).
Proof.
  induction 1 as [|x l Hl IH Hx]; [constructor|].
  rewrite filter_cons. destruct (decide (P x)); [|exact IH].
  constructor; [exact IH|].
  rewrite Forall_forall in Hx. apply Forall_forall. intros y Hy.
  apply list_elem_of_filter in Hy as [_ Hy]. now apply Hx.
Qed.

Lemma strOf_index (vars : gmap string Value) (k s : string) :
  strOf (index vars k) = Some s
  <-> exists secret, vars !! k = Some (mkValue (Str s) secret).
Proof.
  unfold strOf, index. split.
  - destruct (vars !! k) as [[value secret]|]; simpl; [|discriminate].
    destruct value; try discriminate. intros [= ->]. eauto.
  - intros [secret ->]. reflexivity.
Qed.

(** The string entries after a string is put under a key that held no
    string: the new entry stands between the entries of smaller and of
    greater key, which are as they were. *)
Lemma stringEntries_insert (vars : gmap string Value) (k s : string)
  (secret : bool) :
  strOf (index vars k) = None ->
  let before := filter (fun e => sort.lt e.1 k) (stringEntries vars) in
  let after := filter (fun e => sort.lt k e.1) (stringEntries vars) in
  stringEntries vars = app before after
  /\ stringEntries (<[k := mkValue (Str s) secret]> vars)
     = app before ((k, s) :: after).
Proof.
  intros Hk before after.
  assert (forall s', ~ (k, s') ∈ stringEntries vars) as Hfresh.
  { intros s' Hin. apply elem_of_stringEntries, strOf_index in Hin.
    congruence. }
  assert (StronglySorted (fun a b : string * string => sort.lt a.1 b.1)
            before) as Hb
    by apply StronglySorted_filter, stringEntries_sorted.
  assert (StronglySorted (fun a b : string * string => sort.lt a.1 b.1)
            after) as Ha
    by apply StronglySorted_filter, stringEntries_sorted.
  assert (forall x1 x2 : string * string,
            x1 ∈ before -> x2 ∈ after -> sort.lt x1.1 x2.1) as Hcross.
  { intros x1 x2 [H1 _]%list_elem_of_filter [H2 _]%list_elem_of_filter.
    exact (lt_trans _ _ _ H1 H2). }
  assert (forall l1 l2 : list (string * string),
            StronglySorted (fun a b => sort.lt a.1 b.1) l1 ->
            StronglySorted (fun a b => sort.lt a.1 b.1) l2 ->
            (forall e, e ∈ l1 <-> e ∈ l2) -> l1 = l2) as Hunique.
  { intros l1 l2 H1 H2 Hiff.
    apply (StronglySorted_unique_strong (fun a b => sort.lt a.1 b.1));
      try assumption.
    - intros a b _ _ Hab Hba. destruct (lt_asym _ _ Hab Hba).
    - apply NoDup_Permutation; try assumption;
        eapply StronglySorted_NoDup; try eassumption;
        intros x; apply lt_irrefl. }
  split; apply Hunique.
  - apply stringEntries_sorted.
  - now apply StronglySorted_app_2.
  - intros [k' s']. rewrite elem_of_app.
    unfold before, after. rewrite !list_elem_of_filter. simpl.
    split; [|tauto]. intros Hin.
    destruct (lt_trichotomy k' k) as [?|[->|?]]; try tauto.
    destruct (Hfresh _ Hin).
  - apply stringEntries_sorted.
  - apply StronglySorted_app_2; [| assumption |].
    + intros x1 x2 Hx1 [->|Hx2]%elem_of_cons.
      * now apply list_elem_of_filter in Hx1 as [? _].
      * now apply Hcross.
    + constructor; [assumption|]. apply Forall_forall.
      intros x Hx. now apply list_elem_of_filter in Hx as [? _].
  - intros [k' s']. rewrite elem_of_stringEntries, elem_of_app, elem_of_cons.
    unfold before, after. rewrite !list_elem_of_filter. simpl.
    rewrite elem_of_stringEntries.
    destruct (decide (k = k')) as [<-|Hne].
    + rewrite lookup_insert_eq. split.
      * intros [secret' Heq]. injection Heq as -> _.
        right. left. reflexivity.
      * intros [[H _]|[Heq|[H _]]];
          [destruct (lt_irrefl _ H) | | destruct (lt_irrefl _ H)].
        injection Heq as ->. eauto.
    + rewrite lookup_insert_ne by assumption. split.
      * intros Hin. destruct (lt_trichotomy k' k) as [?|[->|?]];
          [left; tauto | congruence | right; right; tauto].
      * intros [[_ H]|[Heq|[_ H]]]; [assumption | | assumption].
        injection Heq as -> _. congruence.
Qed.

(** The keys of the string entries are the keys of the mapping under
    which a string stands, each once. *)
Lemma stringEntries_keys (vars : gmap string Value) :
  (stringEntries vars).*1
  ≡ₚ (map_to_list
        (filter (fun kv : string * Value => isStr kv.2 = true) vars)).*1.
Proof.
  apply NoDup_Permutation.
  - apply stringEntries_keys_NoDup.
  - apply NoDup_fst_map_to_list.
  - intros k. rewrite !list_elem_of_fmap. split.
    + intros ([k' s] & -> & Hin).
      apply elem_of_stringEntries in Hin as [secret Hk].
      exists (k', mkValue (Str s) secret). split; [reflexivity|].
      apply elem_of_map_to_list, map_lookup_filter_Some. now split.
    + intros ([k' v] & -> & Hin).
      apply elem_of_map_to_list, map_lookup_filter_Some in Hin
        as [Hk Hv]. simpl in Hv.
      destruct v as [value secret]. destruct value; try discriminate Hv.
      exists (k', s). split; [reflexivity|].
      apply elem_of_stringEntries. eauto.
Qed.

Lemma hasNewline_app (a b : string) :
  hasNewline (a ++ b) = hasNewline a || hasNewline b.
Proof.
  induction a as [|c a IH]; [reflexivity|].
  change (String c a ++ b) with (String c (a ++ b)).
  cbn [hasNewline]. now rewrite IH, orb_assoc.
Qed.

Lemma scan_hasNewline (pending : bool) (s : string) :
  strconv.scan pending s = true -> hasNewline s = false.
Proof.
  revert pending. induction s as [|c s IH]; intros pending; [reflexivity|].
  cbn [strconv.scan hasNewline].
  destruct (byte c =? 10); [discriminate|]. simpl.
  destruct pending; [apply IH|].
  destruct (byte c =? 92); [apply IH|].
  destruct (byte c =? 34); [discriminate|apply IH].
Qed.

(** The quoted form of a string has no newline in it. *)
Lemma hasNewline_Quote (isPrintTable : Z -> bool) (s : string) :
  hasNewline (strconv.Quote isPrintTable s) = false.
Proof.
  unfold strconv.Quote. rewrite !hasNewline_app.
  rewrite (scan_hasNewline false _ (wellEscaped_quoteLoop _ _ _)).
  reflexivity.
Qed.

Section Render.
Variable isPrintTable : Z -> bool.
Variable json_string : string -> string.
Variable json_number : string -> error + string.
Variable json_Value : Value -> error + string.
Variable ToString : Value -> string.

Let render :=
  renderValue isPrintTable json_string json_number json_Value ToString.

Let Quote := strconv.Quote isPrintTable.

(** X10. With an environment at hand, [renderValue] answers a format
    outside json, detailed, dotenv, shell and string with the error about
    the unknown format and writes nothing, whatever the path. *)
Theorem renderValue_unknown_format (o : MapOrder) (out : io.Writer)
  (env : Environment) (path : PropertyPath) (format : string) :
  format <> "json" -> format <> "detailed" -> format <> "dotenv" ->
  format <> "shell" -> format <> "string" ->
  render o out (Some env) path format
  = (out, Some ("unknown output format " ++ Quote format)).
Proof.
  intros H1 H2 H3 H4 H5. unfold render, renderValue.
  apply String.eqb_neq in H1, H2, H3, H4, H5.
  now rewrite H1, H2, H3, H4, H5.
Qed.

(** X11. What the formats dotenv and shell write depends on the strings
    held by the entries of [environmentVariables] and on nothing else:
    two environments that hold the same string, or none, under every key
    of that mapping are rendered alike, whatever their other properties,
    the other fields of the values, the paths and the orders of
    iteration. *)
Theorem dotenv_shell_depend_on_strings_only (o1 o2 : MapOrder)
  (out : io.Writer) (env1 env2 : Environment) (path1 path2 : PropertyPath)
  (format : string) :
  format = "dotenv" \/ format = "shell" ->
  (forall k, strOf (index (variablesOf env1) k)
             = strOf (index (variablesOf env2) k)) ->
  render o1 out (Some env1) path1 format
  = render o2 out (Some env2) path2 format.
Proof.
  intros Hformat Hsame.
  assert (stringEntries (variablesOf env1)
          = stringEntries (variablesOf env2)) as Heq.
  { apply stringEntries_ext. intros k s.
    rewrite <- !strOf_index. now rewrite Hsame. }
  unfold render.
  destruct Hformat as [-> | ->].
  - now rewrite !renderValue_dotenv, Heq.
  - now rewrite !renderValue_shell, Heq.
Qed.

(** X12. Putting a string under a key of [environmentVariables] that held
    no string adds one line to what dotenv writes, at the place of the key
    in the byte order: the lines of the smaller keys come before it and
    the lines of the greater keys after it, all as they were. *)
Theorem dotenv_insert_string (o1 o2 : MapOrder) (out : io.Writer)
  (env : Environment) (path : PropertyPath) (vars : gmap string Value)
  (secret0 : bool) (k s : string) (secret : bool) :
  index (Properties env) "environmentVariables" = mkValue (Map vars) secret0 ->
  strOf (index vars k) = None ->
  exists before after : list (string * string),
    Forall (fun e => sort.lt e.1 k) before
    /\ Forall (fun e => sort.lt k e.1) after
    /\ (render o1 out (Some env) path "dotenv").1
       = app out (map (fun e => e.1 ++ "=" ++ Quote e.2 ++ nl)
                      (app before after))
    /\ (render o2 out
          (Some {| Properties :=
                     <["environmentVariables" :=
                         mkValue (Map (<[k := mkValue (Str s) secret]> vars))
                                 secret0]>
                       (Properties env) |})
          path "dotenv").1
       = app out (map (fun e => e.1 ++ "=" ++ Quote e.2 ++ nl)
                      (app before ((k, s) :: after))).
Proof.
  intros Henv Hk.
  destruct (stringEntries_insert vars k s secret Hk) as [Hold Hnew].
  exists (filter (fun e => sort.lt e.1 k) (stringEntries vars)),
         (filter (fun e => sort.lt k e.1) (stringEntries vars)).
  repeat split.
  - apply Forall_forall. intros e He.
    now apply list_elem_of_filter in He as [? _].
  - apply Forall_forall. intros e He.
    now apply list_elem_of_filter in He as [? _].
  - unfold render. rewrite renderValue_dotenv.
    rewrite (variablesOf_map env vars secret0 Henv). simpl.
    now rewrite <- Hold.
  - unfold render. rewrite renderValue_dotenv.
    rewrite (variablesOf_map _ (<[k := mkValue (Str s) secret]> vars)
               secret0).
    + simpl. now rewrite <- Hnew.
    + unfold index. simpl. now rewrite lookup_insert_eq.
Qed.

(** X13. The formats dotenv and shell make one write for every entry of
    [environmentVariables] whose value is a string, and no other. *)
Theorem dotenv_shell_write_count (o : MapOrder) (out : io.Writer)
  (env : Environment) (path : PropertyPath) (format : string) :
  format = "dotenv" \/ format = "shell" ->
  length (render o out (Some env) path format).1
  = (length out
     + size (filter (fun kv : string * Value => isStr kv.2 = true)
                    (variablesOf env)))%nat.
Proof.
  intros Hformat.
  assert (length (stringEntries (variablesOf env))
          = size (filter (fun kv : string * Value => isStr kv.2 = true)
                         (variablesOf env))) as Hcount.
  { rewrite <- length_map_to_list.
    rewrite <- (length_fmap fst (stringEntries _)).
    rewrite <- (length_fmap fst (map_to_list _)).
    apply Permutation_length, stringEntries_keys. }
  unfold render.
  destruct Hformat as [-> | ->].
  - rewrite renderValue_dotenv. simpl.
    now rewrite length_app, length_map, Hcount.
  - rewrite renderValue_shell. simpl.
    now rewrite length_app, length_map, Hcount.
Qed.

(** X14. When no key of a string entry of [environmentVariables] has a
    newline in it, every write of dotenv and of shell is one line: a text
    without newline followed by one newline, the text of shell being the
    one of dotenv after [export ]. A newline inside a value never breaks
    the line. *)
Theorem dotenv_shell_one_line_per_entry (o1 o2 : MapOrder)
  (out : io.Writer) (env : Environment) (path : PropertyPath) :
  (forall k v, variablesOf env !! k = Some v -> isStr v = true ->
               hasNewline k = false) ->
  exists texts : list string,
    Forall (fun text => hasNewline text = false) texts
    /\ (render o1 out (Some env) path "dotenv").1
       = app out (map (fun text => text ++ nl) texts)
    /\ (render o2 out (Some env) path "shell").1
       = app out (map (fun text => "export " ++ text ++ nl) texts).
Proof.
  intros Hkeys.
  exists (map (lineOf isPrintTable) (stringEntries (variablesOf env))).
  repeat split.
  - apply Forall_forall. intros text Hin.
    apply list_elem_of_fmap in Hin as ([k s] & -> & Hin).
    apply elem_of_stringEntries in Hin as [secret Hk].
    unfold lineOf, kvpOf, quoted. simpl.
    rewrite !hasNewline_app, hasNewline_Quote.
    now rewrite (Hkeys k _ Hk eq_refl).
  - unfold render. rewrite renderValue_dotenv, map_map. simpl.
    f_equal. apply map_ext. intros e. now rewrite lineOf_nl.
  - unfold render. rewrite renderValue_shell, map_map. simpl.
    f_equal. apply map_ext. intros e. now rewrite lineOf_nl.
Qed.

End Render.

End RenderExtras.

(** * The further properties on sample inputs *)

Module ExtraWitnesses.
Import Bytes esc resource cli Derived.
Import CommandExtras RenderExtras.

Lemma openEnvironment_returns_fetch_witness :
  OpenEnvironment string Samples.brokenFetchClient "org" "env" 7200
  = ("session", [], None)
  /\ GetOpenEnvironment string Samples.brokenFetchClient "org" "env"
       "session" = (Some Samples.treeBA, Some "gone")
  /\ openEnvironment string Samples.brokenFetchClient "org" "env" 7200
       initial
     = ((Some Samples.treeBA, [], Some "gone"),
        called (called initial (OpenEnvironmentCall "org" "env" 7200))
               (GetOpenEnvironmentCall "org" "env" "session")).
Proof.
  split; [reflexivity|]. split; [reflexivity|].
  apply (openEnvironment_returns_fetch string Samples.brokenFetchClient
           "org" "env" 7200 initial "session" (Some Samples.treeBA)
           (Some "gone")); reflexivity.
Defined.

Lemma RunE_invalid_property_path_witness :
  @None error = None
  /\ Samples.splitName ["env"; "a["] = ("org", "env", ["a["], None)
  /\ Samples.rejectPath "a[" = ([], Some "missing closing bracket")
  /\ Samples.commandParsing Samples.rejectPath Samples.servingClient
       Samples.forwardOrder "bogus" 7200 ["env"; "a["] initial
     = (Some ("invalid property path " ++ "a[" ++ ": "
              ++ "missing closing bracket"), initial).
Proof.
  split; [reflexivity|]. split; [reflexivity|]. split; [reflexivity|].
  apply (RunE_invalid_property_path Samples.noTable Samples.bareString
           Samples.anyNumber Samples.noDetail Samples.noString string
           Samples.servingClient None Samples.splitName Samples.rejectPath
           Samples.reportAll Samples.forwardOrder "bogus" 7200
           ["env"; "a["] initial "org" "env" "a[" []
           "missing closing bracket"); reflexivity.
Defined.

Lemma RunE_without_call_fails_clean_witness :
  calls (Samples.command Samples.servingClient Samples.forwardOrder
           "dotenv" 7200 ["env"; "a"] initial).2 = calls initial
  /\ (Samples.command Samples.servingClient Samples.forwardOrder "dotenv"
        7200 ["env"; "a"] initial).2 = initial
  /\ exists e,
       (Samples.command Samples.servingClient Samples.forwardOrder "dotenv"
          7200 ["env"; "a"] initial).1 = Some e.
Proof.
  split; [reflexivity|].
  apply (RunE_without_call_fails_clean Samples.noTable Samples.bareString
           Samples.anyNumber Samples.noDetail Samples.noString string
           Samples.servingClient None Samples.splitName Samples.oneKey
           Samples.reportAll Samples.forwardOrder "dotenv" 7200
           ["env"; "a"] initial).
  reflexivity.
Defined.

Lemma RunE_remote_error_witness :
  @None error = None
  /\ Samples.splitName ["env"] = ("org", "env", [], None)
  /\ parsePath Samples.oneKey [] = inr []
  /\ acceptedFormat "dotenv" []
  /\ Samples.command Samples.failingClient Samples.forwardOrder "dotenv"
       7200 ["env"] initial
     = (Some "boom", called initial (OpenEnvironmentCall "org" "env" 7200))
  /\ Samples.command Samples.brokenFetchClient Samples.forwardOrder
       "dotenv" 7200 ["env"] initial
     = (Some "gone",
        called (called initial (OpenEnvironmentCall "org" "env" 7200))
               (GetOpenEnvironmentCall "org" "env" "session")).
Proof.
  assert (acceptedFormat "dotenv" []) as Hacc.
  { right. right. right. split; [now left|reflexivity]. }
  split; [reflexivity|]. split; [reflexivity|]. split; [reflexivity|].
  split; [exact Hacc|]. split.
  - apply (proj1 (RunE_remote_error Samples.noTable Samples.bareString
             Samples.anyNumber Samples.noDetail Samples.noString string
             Samples.failingClient None Samples.splitName Samples.oneKey
             Samples.reportAll Samples.forwardOrder "dotenv" 7200 ["env"]
             initial "org" "env" [] [] eq_refl eq_refl eq_refl Hacc)
           "session" ["bad reference"] "boom" eq_refl).
  - apply (proj2 (RunE_remote_error Samples.noTable Samples.bareString
             Samples.anyNumber Samples.noDetail Samples.noString string
             Samples.brokenFetchClient None Samples.splitName
             Samples.oneKey Samples.reportAll Samples.forwardOrder
             "dotenv" 7200 ["env"] initial "org" "env" [] [] eq_refl
             eq_refl eq_refl Hacc)
           "session" (Some Samples.treeBA) "gone" eq_refl eq_refl).
Defined.

Lemma RunE_renders_fetched_witness :
  @None error = None
  /\ Samples.splitName ["env"] = ("org", "env", [], None)
  /\ parsePath Samples.oneKey [] = inr []
  /\ acceptedFormat "shell" []
  /\ OpenEnvironment string Samples.servingClient "org" "env" 7200
     = ("session", [], None)
  /\ GetOpenEnvironment string Samples.servingClient "org" "env" "session"
     = (Some Samples.treeBA, None)
  /\ Samples.command Samples.servingClient Samples.backwardOrder "shell"
       7200 ["env"] initial
     = ((Samples.render Samples.backwardOrder (stdout initial)
           (Some Samples.treeBA) [] "shell").2,
        {| calls := app (calls initial)
                        [OpenEnvironmentCall "org" "env" 7200;
                         GetOpenEnvironmentCall "org" "env" "session"];
           stdout := (Samples.render Samples.backwardOrder (stdout initial)
                        (Some Samples.treeBA) [] "shell").1;
           stderr := stderr initial |}).
Proof.
  assert (acceptedFormat "shell" []) as Hacc.
  { right. right. right. split; [now right|reflexivity]. }
  split; [reflexivity|]. split; [reflexivity|]. split; [reflexivity|].
  split; [exact Hacc|]. split; [reflexivity|]. split; [reflexivity|].
  apply (RunE_renders_fetched Samples.noTable Samples.bareString
           Samples.anyNumber Samples.noDetail Samples.noString string
           Samples.servingClient None Samples.splitName Samples.oneKey
           Samples.reportAll Samples.backwardOrder "shell" 7200 ["env"]
           initial "org" "env" [] [] "session" (Some Samples.treeBA)
           eq_refl eq_refl eq_refl Hacc eq_refl eq_refl).
Defined.

Lemma RunE_reports_diagnostics_witness :
  @None error = None
  /\ Samples.splitName ["env"; "a"] = ("org", "env", ["a"], None)
  /\ parsePath Samples.oneKey ["a"] = inr [Key "a"]
  /\ acceptedFormat "json" [Key "a"]
  /\ OpenEnvironment string Samples.diagnosingClient "org" "env" 7200
     = ("session", ["bad reference"], None)
  /\ Samples.command Samples.diagnosingClient Samples.forwardOrder "json"
       7200 ["env"; "a"] initial
     = ((Samples.reportAll (stderr initial) ["bad reference"]).2,
        {| calls := app (calls initial)
                        [OpenEnvironmentCall "org" "env" 7200];
           stdout := stdout initial;
           stderr :=
             (Samples.reportAll (stderr initial) ["bad reference"]).1 |}).
Proof.
  assert (acceptedFormat "json" [Key "a"]) as Hacc by (right; now left).
  split; [reflexivity|]. split; [reflexivity|]. split; [reflexivity|].
  split; [exact Hacc|]. split; [reflexivity|].
  apply (RunE_reports_diagnostics Samples.noTable Samples.bareString
           Samples.anyNumber Samples.noDetail Samples.noString string
           Samples.diagnosingClient None Samples.splitName Samples.oneKey
           Samples.reportAll Samples.forwardOrder "json" 7200 ["env"; "a"]
           initial "org" "env" ["a"] [Key "a"] "session" "bad reference" []
           eq_refl eq_refl eq_refl Hacc eq_refl).
Defined.

Lemma renderValue_unknown_format_witness :
  "yaml" <> "json" /\ "yaml" <> "detailed" /\ "yaml" <> "dotenv"
  /\ "yaml" <> "shell" /\ "yaml" <> "string"
  /\ Samples.render Samples.forwardOrder ["earlier"] (Some Samples.treeBA)
       [Key "x"] "yaml"
     = (["earlier"],
        Some ("unknown output format "
              ++ strconv.Quote Samples.noTable "yaml")).
Proof.
  repeat (split; [discriminate|]).
  apply (renderValue_unknown_format Samples.noTable Samples.bareString
           Samples.anyNumber Samples.noDetail Samples.noString
           Samples.forwardOrder ["earlier"] Samples.treeBA [Key "x"]
           "yaml"); discriminate.
Defined.

Lemma mixed_secret_same_strings (k : string) :
  strOf (index (variablesOf Samples.treeMixed) k)
  = strOf (index (variablesOf Samples.treeSecret) k).
Proof.
  change (variablesOf Samples.treeMixed) with Samples.mixedVars.
  change (variablesOf Samples.treeSecret) with Samples.secretVars.
  unfold index, Samples.mixedVars, Samples.secretVars.
  rewrite !lookup_insert.
  repeat case_decide; subst; try reflexivity; try congruence.
Qed.

Lemma dotenv_shell_depend_on_strings_only_witness :
  ("dotenv" = "dotenv" \/ "dotenv" = "shell")
  /\ (forall k, strOf (index (variablesOf Samples.treeMixed) k)
                = strOf (index (variablesOf Samples.treeSecret) k))
  /\ Samples.render Samples.forwardOrder [] (Some Samples.treeMixed) []
       "dotenv"
     = Samples.render Samples.backwardOrder [] (Some Samples.treeSecret)
         [Key "region"] "dotenv".
Proof.
  split; [now left|]. split; [exact mixed_secret_same_strings|].
  apply (dotenv_shell_depend_on_strings_only Samples.noTable
           Samples.bareString Samples.anyNumber Samples.noDetail
           Samples.noString Samples.forwardOrder Samples.backwardOrder []
           Samples.treeMixed Samples.treeSecret [] [Key "region"] "dotenv");
    [now left | exact mixed_secret_same_strings].
Defined.

Lemma dotenv_insert_string_witness :
  index (Properties Samples.treeMixed) "environmentVariables"
  = mkValue (Map Samples.mixedVars) false
  /\ strOf (index Samples.mixedVars "LANG") = None
  /\ exists before after : list (string * string),
       Forall (fun e => sort.lt e.1 "LANG") before
       /\ Forall (fun e => sort.lt "LANG" e.1) after
       /\ (Samples.render Samples.forwardOrder [] (Some Samples.treeMixed)
             [] "dotenv").1
          = app [] (map (fun e => e.1 ++ "=" ++ strconv.Quote Samples.noTable e.2
                                  ++ nl) (app before after))
       /\ (Samples.render Samples.backwardOrder []
             (Some {| Properties :=
                        <["environmentVariables" :=
                            mkValue (Map (<["LANG" := mkValue (Str "C") false]>
                                            Samples.mixedVars)) false]>
                          (Properties Samples.treeMixed) |})
             [] "dotenv").1
          = app [] (map (fun e => e.1 ++ "=" ++ strconv.Quote Samples.noTable e.2
                                  ++ nl) (app before (("LANG", "C") :: after))).
Proof.
  split; [reflexivity|]. split; [reflexivity|].
  apply (dotenv_insert_string Samples.noTable Samples.bareString
           Samples.anyNumber Samples.noDetail Samples.noString
           Samples.forwardOrder Samples.backwardOrder [] Samples.treeMixed
           [] Samples.mixedVars false "LANG" "C" false); reflexivity.
Defined.

Lemma dotenv_shell_write_count_witness :
  ("shell" = "dotenv" \/ "shell" = "shell")
  /\ length (Samples.render Samples.forwardOrder ["earlier"]
               (Some Samples.treeMixed) [] "shell").1
     = (length ["earlier"]
        + size (filter (fun kv : string * Value => isStr kv.2 = true)
                       (variablesOf Samples.treeMixed)))%nat.
Proof.
  split; [now right|].
  apply (dotenv_shell_write_count Samples.noTable Samples.bareString
           Samples.anyNumber Samples.noDetail Samples.noString
           Samples.forwardOrder ["earlier"] Samples.treeMixed [] "shell").
  now right.
Defined.

Lemma mixed_keys_one_line (k : string) (v : Value) :
  variablesOf Samples.treeMixed !! k = Some v -> isStr v = true ->
  hasNewline k = false.
Proof.
  change (variablesOf Samples.treeMixed) with Samples.mixedVars.
  unfold Samples.mixedVars. rewrite !lookup_insert.
  repeat case_decide; subst; try reflexivity.
  rewrite lookup_empty. discriminate.
Qed.

Lemma dotenv_shell_one_line_per_entry_witness :
  (forall k v, variablesOf Samples.treeMixed !! k = Some v ->
               isStr v = true -> hasNewline k = false)
  /\ exists texts : list string,
       Forall (fun text => hasNewline text = false) texts
       /\ (Samples.render Samples.forwardOrder [] (Some Samples.treeMixed)
             [] "dotenv").1
          = app [] (map (fun text => text ++ nl) texts)
       /\ (Samples.render Samples.backwardOrder []
             (Some Samples.treeMixed) [] "shell").1
          = app [] (map (fun text => "export " ++ text ++ nl) texts).
Proof.
  split; [exact mixed_keys_one_line|].
  apply (dotenv_shell_one_line_per_entry Samples.noTable Samples.bareString
           Samples.anyNumber Samples.noDetail Samples.noString
           Samples.forwardOrder Samples.backwardOrder [] Samples.treeMixed
           []).
  exact mixed_keys_one_line.
Defined.

End ExtraWitnesses.
